(** * Refresh-token exchange of dex (server/refreshhandlers.go)

    A shallow embedding of the refresh-token handlers: the validator
    [getRefreshTokenFromStorage], the scope reconciler [getRefreshScopes],
    the identity refresher [refreshWithConnector], the rotator
    [updateRefreshToken] with its two updater closures, and the
    orchestrator [handleRefreshToken].

    Go strings are byte strings ([string]), [time.Time] is an integer
    instant, byte slices are [list Byte.byte], Go maps are [gmap].  The
    storage, the connectors, the token minters and the codec are the
    handlers' collaborators; they appear as a storage state with its
    contract operations and as fields of the [Server] record. *)

From stdpp Require Import gmap strings list.
From Stdlib Require Import ZArith Ascii String Strings.Byte.

Open Scope Z_scope.

(** ** Pieces of the Go standard library the handlers call *)

Module utf8.

Definition byteZ (c : ascii) : Z := Z.of_N (N_of_ascii c).

Definition RuneError : Z := 65533.

(** Continuation bytes are [locb..hicb] = [0x80..0xBF]. *)
Definition isCont (b : Z) : bool := (128 <=? b) && (b <=? 191).

(** [utf8.DecodeRuneInString]: the rune at the head of [s] and its
    width; an invalid or truncated encoding is [RuneError] of width 1,
    the empty string is [RuneError] of width 0. *)
Definition DecodeRuneInString (s : string) : Z * nat :=
  match s with
  | EmptyString => (RuneError, 0%nat)
  | String c0 t0 =>
    let s0 := byteZ c0 in
    if s0 <? 128 then (s0, 1%nat)
    else if (s0 <? 194) || (244 <? s0) then (RuneError, 1%nat)
    else
      let sz := if s0 <? 224 then 2 else if s0 <? 240 then 3 else 4 in
      let lo := if s0 =? 224 then 160 else if s0 =? 240 then 144 else 128 in
      let hi := if s0 =? 237 then 159 else if s0 =? 244 then 143 else 191 in
      match t0 with
      | EmptyString => (RuneError, 1%nat)
      | String c1 t1 =>
        let s1 := byteZ c1 in
        if (s1 <? lo) || (hi <? s1) then (RuneError, 1%nat)
        else if sz <=? 2
        then (Z.lor (Z.shiftl (Z.land s0 31) 6) (Z.land s1 63), 2%nat)
        else
          match t1 with
          | EmptyString => (RuneError, 1%nat)
          | String c2 t2 =>
            let s2 := byteZ c2 in
            if negb (isCont s2) then (RuneError, 1%nat)
            else if sz <=? 3
            then (Z.lor (Z.lor (Z.shiftl (Z.land s0 15) 12)
                               (Z.shiftl (Z.land s1 63) 6))
                        (Z.land s2 63), 3%nat)
            else
              match t2 with
              | EmptyString => (RuneError, 1%nat)
              | String c3 _ =>
                let s3 := byteZ c3 in
                if negb (isCont s3) then (RuneError, 1%nat)
                else (Z.lor (Z.lor (Z.lor (Z.shiftl (Z.land s0 7) 18)
                                          (Z.shiftl (Z.land s1 63) 12))
                                   (Z.shiftl (Z.land s2 63) 6))
                            (Z.land s3 63), 4%nat)
              end
          end
      end
  end.

(** The runes of a string in order, each with the bytes that encode it,
    as [for _, r := range s] visits them.  [skip] counts the bytes of
    the current rune still to be passed over. *)
Fixpoint runesFrom (skip : nat) (s : string) : list (Z * string) :=
  match s with
  | EmptyString => []
  | String _ rest =>
    match skip with
    | S k => runesFrom k rest
    | O => let '(r, size) := DecodeRuneInString s in
           (r, substring 0 size s) :: runesFrom (size - 1) rest
    end
  end.

Definition runes (s : string) : list (Z * string) := runesFrom 0 s.

End utf8.

Module unicode.

(** [unicode.IsSpace]: the Latin-1 white space, then the White_Space
    table above Latin-1. *)
Definition IsSpace (r : Z) : bool :=
  if (0 <=? r) && (r <=? 255)
  then (r =? 9) || (r =? 10) || (r =? 11) || (r =? 12) || (r =? 13)
       || (r =? 32) || (r =? 133) || (r =? 160)
  else (r =? 5760) || ((8192 <=? r) && (r <=? 8202))
       || (r =? 8232) || (r =? 8233) || (r =? 8239) || (r =? 8287)
       || (r =? 12288).

End unicode.

Module strings.

Definition flush (cur : option string) : list string :=
  match cur with Some w => [w] | None => [] end.

(** The span loop of [strings.FieldsFunc]: [cur] is the field being
    read ([start >= 0] in the source), closed by a rune satisfying [f]
    or by the end of the string. *)
Fixpoint fieldsOf (f : Z -> bool) (rs : list (Z * string))
         (cur : option string) : list string :=
  match rs with
  | [] => flush cur
  | (r, bytes) :: rs' =>
    if f r then flush cur ++ fieldsOf f rs' None
    else fieldsOf f rs'
           (Some (match cur with Some w => w +:+ bytes | None => bytes end))
  end.

Definition FieldsFunc (s : string) (f : Z -> bool) : list string :=
  fieldsOf f (utf8.runes s) None.

(** [strings.Fields]: its ASCII fast path computes the same fields as
    [FieldsFunc s unicode.IsSpace], which it calls for any other
    input. *)
Definition Fields (s : string) : list string :=
  FieldsFunc s unicode.IsSpace.

End strings.

Module http.

Definition StatusBadRequest : Z := 400.
Definition StatusInternalServerError : Z := 500.

(** A request as far as the handlers read it: its POST form, a map from
    field name to the values sent for it. *)
Record Request := { PostForm : gmap string (list string) }.

(** [r.PostFormValue(key)]: the first value of the field, the empty
    string when the field is absent. *)
Definition PostFormValue (r : Request) (key : string) : string :=
  match PostForm r !! key with
  | Some (v :: _) => v
  | _ => EmptyString
  end.

End http.

Definition Time := Z.

(** ** Data model and storage *)

(** A call either returns or panics (a nil pointer is read). *)
Inductive outcome (A : Type) :=
| Returned (a : A)
| Panicked.
Arguments Returned {A} a.
Arguments Panicked {A}.

Module storage.

(** [storage.Claims] *)
Module Claims.
Record t := mk {
  UserID : string;
  Username : string;
  PreferredUsername : string;
  Email : string;
  EmailVerified : bool;
  Groups : list string
}.
End Claims.

(** [storage.RefreshToken] *)
Module RefreshToken.
Record t := mk {
  ID : string;
  Token : string;
  ObsoleteToken : string;
  CreatedAt : Time;
  LastUsed : Time;
  ClientID : string;
  ConnectorID : string;
  ConnectorData : list byte;
  Claims : Claims.t;
  Scopes : list string;
  Nonce : string
}.
End RefreshToken.

(** [storage.RefreshTokenRef] *)
Module RefreshTokenRef.
Record t := mk {
  ID : string;
  ClientID : string;
  CreatedAt : Time;
  LastUsed : Time
}.
End RefreshTokenRef.

(** [storage.OfflineSessions]; [Refresh] maps a client id to a pointer to
    its reference, so a missing key reads as the nil pointer. *)
Module OfflineSessions.
Record t := mk {
  UserID : string;
  ConnID : string;
  Refresh : gmap string RefreshTokenRef.t;
  ConnectorData : list byte
}.
End OfflineSessions.

(** [storage.Client], as far as the handlers read it. *)
Module Client.
Record t := mk { ID : string }.
End Client.

Inductive error :=
| ErrNotFound
| Error (text : string).

Definition isNotFound (e : error) : bool :=
  match e with ErrNotFound => true | Error _ => false end.

Inductive Op :=
| OpGetRefresh
| OpUpdateRefreshToken
| OpGetOfflineSessions
| OpUpdateOfflineSessions.

(** Modelled from the spec: the storage backend is outside this file.
    This is its contract (get and compare-and-update on the two
    records, each answering a value, not-found or an error) on a state
    of two maps.  [failing] names the operations the backend currently
    answers with an error of its own.  Records are handed out by value:
    nothing a handler does to a record it was given reaches the state
    except through an update. *)
Record t := mk {
  refreshTokens : gmap string RefreshToken.t;
  offlineSessions : gmap (string * string) OfflineSessions.t;
  failing : Op -> bool
}.

Definition backendError : error := Error "storage backend failure".

(** Modelled from the spec: [get_refresh(id)] and
    [get_offline_sessions(user_id, connector_id)] of the storage
    contract; they read the state and leave it alone. *)
Definition GetRefresh (st : t) (id : string) : RefreshToken.t + error :=
  if failing st OpGetRefresh then inr backendError
  else match refreshTokens st !! id with
       | Some r => inl r
       | None => inr ErrNotFound
       end.

Definition GetOfflineSessions (st : t) (userID connID : string)
  : OfflineSessions.t + error :=
  if failing st OpGetOfflineSessions then inr backendError
  else match offlineSessions st !! (userID, connID) with
       | Some o => inl o
       | None => inr ErrNotFound
       end.

(** Modelled from the spec: [update_refresh(id, updater)] and
    [update_offline_sessions(user_id, connector_id, updater)] of the
    storage contract; the value the updater returns is stored unless it
    returns an error.  The updater is a closure: [C] is the state of the
    variables it captures, threaded through its call.  With one request
    at a time there is no conflict to retry, and the updater runs once
    on the value the state holds. *)
Definition UpdateRefreshToken {C : Type} (st : t) (id : string)
           (updater : C -> RefreshToken.t -> (RefreshToken.t * option error) * C)
           (c : C) : (option error * C) * t :=
  if failing st OpUpdateRefreshToken then ((Some backendError, c), st)
  else match refreshTokens st !! id with
       | None => ((Some ErrNotFound, c), st)
       | Some old =>
         let '((new, err), c') := updater c old in
         match err with
         | Some e => ((Some e, c'), st)
         | None => ((None, c'),
                    mk (<[id := new]> (refreshTokens st)) (offlineSessions st)
                       (failing st))
         end
       end.

Definition UpdateOfflineSessions (st : t) (userID connID : string)
           (updater : OfflineSessions.t -> outcome (OfflineSessions.t * option error))
  : outcome (option error) * t :=
  if failing st OpUpdateOfflineSessions then (Returned (Some backendError), st)
  else match offlineSessions st !! (userID, connID) with
       | None => (Returned (Some ErrNotFound), st)
       | Some old =>
         match updater old with
         | Panicked => (Panicked, st)
         | Returned (_, Some e) => (Returned (Some e), st)
         | Returned (new, None) =>
           (Returned None,
            mk (refreshTokens st) (<[(userID, connID) := new]> (offlineSessions st))
               (failing st))
         end
       end.

End storage.

Module connector.

(** [connector.Identity] *)
Module Identity.
Record t := mk {
  UserID : string;
  Username : string;
  PreferredUsername : string;
  Email : string;
  EmailVerified : bool;
  Groups : list string;
  ConnectorData : list byte
}.
End Identity.

End connector.

Module internal.

(** [internal.RefreshToken], the handle a client holds. *)
Module RefreshToken.
Record t := mk { RefreshId : string; Token : string }.
End RefreshToken.

End internal.

(** The handlers name the records of the storage and connector packages
    by their type names; the handle stays [internal.RefreshToken]. *)
Import storage connector.

(** ** Errors *)

(** Modelled from the spec: the OAuth2 error codes of the error taxonomy,
    declared by the server package outside this file. *)
Definition errInvalidRequest : string := "invalid_request".
Definition errInvalidGrant : string := "invalid_grant".
Definition errServerError : string := "server_error".

(** An error description: a text, or the result of a format with one
    [%q] verb applied to a slice of strings, kept with its operand. *)
Inductive Desc :=
| Text (s : string)
| QuotedList (before : string) (items : list string) (after : string).

Record refreshError := mkRefreshError {
  msg : string;
  code : Z;
  desc : Desc
}.

Definition newInternalServerError : refreshError :=
  {| msg := errInvalidRequest; desc := Text ""; code := http.StatusInternalServerError |}.

Definition newBadRequestError (d : Desc) : refreshError :=
  {| msg := errInvalidRequest; desc := d; code := http.StatusBadRequest |}.

Inductive result (A : Type) :=
| Ok (a : A)
| Err (e : refreshError).
Arguments Ok {A} a.
Arguments Err {A} e.

(** ** Scope reconciliation *)

Fixpoint contains (arr : list string) (item : string) : bool :=
  match arr with
  | [] => false
  | itemFromArray :: arr' =>
    if String.eqb itemFromArray item then true else contains arr' item
  end.

(** The loop of [getRefreshScopes] collecting the requested scopes that
    the stored scopes lack, in request order. *)
Fixpoint unauthorized (stored requested : list string) : list string :=
  match requested with
  | [] => []
  | requestScope :: rest =>
    if negb (contains stored requestScope)
    then requestScope :: unauthorized stored rest
    else unauthorized stored rest
  end.

Definition getRefreshScopes (r : http.Request) (refresh : RefreshToken.t)
  : result (list string) :=
  let scope := http.PostFormValue r "scope" in
  if String.eqb scope "" then Ok (RefreshToken.Scopes refresh)
  else
    let requestedScopes := strings.Fields scope in
    let unauthorizedScopes := unauthorized (RefreshToken.Scopes refresh) requestedScopes in
    if (0 <? Z.of_nat (List.length unauthorizedScopes))
    then Err (newBadRequestError
                (QuotedList "Requested scopes contain unauthorized scope(s): "
                            unauthorizedScopes "."))
    else Ok requestedScopes.

(** ** The refresh-token policy *)

(** The handlers call four predicates of the policy; each reads the
    policy's own clock, so a policy value stands for the policy at the
    instant of the request. *)
Record RefreshTokenPolicy := mkPolicy {
  RotationEnabled : bool;
  AllowedToReuse : Time -> bool;
  CompletelyExpired : Time -> bool;
  ExpiredBecauseUnused : Time -> bool
}.

(** Modelled from the spec: the policy type is declared outside this
    file; these are its predicates as the policy section words them, over
    the configured durations and an injected [now]: reuse is allowed iff
    [now - last_used <= reuse_window], and a zero lifetime never
    expires. *)
Definition policyAt (rotate : bool) (reuseInterval absoluteLifetime validIfNotUsedFor : Z)
           (now : Time) : RefreshTokenPolicy :=
  {| RotationEnabled := rotate;
     AllowedToReuse lastUsed := now - lastUsed <=? reuseInterval;
     CompletelyExpired createdAt :=
       negb (absoluteLifetime =? 0) && (absoluteLifetime <? now - createdAt);
     ExpiredBecauseUnused lastUsed :=
       negb (validIfNotUsedFor =? 0) && (validIfNotUsedFor <? now - lastUsed) |}.


(** ** The server *)

(** A connector either implements [connector.RefreshConnector] or does
    not; [Refresh scopes ident] stands for
    [refreshConn.Refresh(ctx, parseScopes(scopes), ident)], [None] for
    its error. *)
Inductive Connector :=
| PlainConnector
| RefreshConnector (Refresh : list string -> Identity.t -> option Identity.t).

Record Server := mkServer {
  refreshTokenPolicy : RefreshTokenPolicy;
  oidcGroupsPrefix : bool;
  (** [s.now()] *)
  now : Time;
  (** [s.getConnector(id)], [None] for its error *)
  getConnector : string -> option Connector;
  (** [s.newAccessToken(clientID, claims, scopes, nonce, connID)] *)
  newAccessToken : string -> Claims.t -> list string -> string -> string -> option string;
  (** [s.newIDToken(clientID, claims, scopes, nonce, accessToken, code, connID)] *)
  newIDToken : string -> Claims.t -> list string -> string -> string -> string -> string
               -> option (string * Time);
  (** [storage.NewID()], the fresh secret drawn for this request *)
  NewID : string;
  (** [internal.Unmarshal] and [internal.Marshal] *)
  Unmarshal : string -> option internal.RefreshToken.t;
  Marshal : internal.RefreshToken.t -> option string
}.

(** ** Extraction *)

Definition extractRefreshTokenFromRequest (s : Server) (r : http.Request)
  : result internal.RefreshToken.t :=
  let code := http.PostFormValue r "refresh_token" in
  if String.eqb code ""
  then Err (newBadRequestError (Text "No refresh token is found in request."))
  else match Unmarshal s code with
       | Some token => Ok token
       | None => Ok (internal.RefreshToken.mk code "")
       end.

(** ** Validation *)

Definition invalidErr (clientID : string) (token : internal.RefreshToken.t) : refreshError :=
  newBadRequestError
    (Text ("clientID " +:+ clientID +:+ " refresh token (ID "
           +:+ internal.RefreshToken.RefreshId token
           +:+ ") is invalid or has already been claimed by another client.")).

Definition expiredErr : refreshError :=
  newBadRequestError (Text "Refresh token expired.").

Definition getRefreshTokenFromStorage (s : Server) (st : storage.t)
           (clientID : string) (token : internal.RefreshToken.t) : result RefreshToken.t :=
  match storage.GetRefresh st (internal.RefreshToken.RefreshId token) with
  | inr err =>
    if negb (storage.isNotFound err) then Err newInternalServerError
    else Err (invalidErr clientID token)
  | inl refresh =>
    if negb (String.eqb (RefreshToken.ClientID refresh) clientID)
    then Err {| msg := errInvalidGrant;
                desc := desc (invalidErr clientID token);
                code := http.StatusBadRequest |}
    else if negb (String.eqb (RefreshToken.Token refresh) (internal.RefreshToken.Token token))
            && (negb (AllowedToReuse (refreshTokenPolicy s) (RefreshToken.LastUsed refresh))
                || negb (String.eqb (RefreshToken.ObsoleteToken refresh)
                                    (internal.RefreshToken.Token token))
                || String.eqb (RefreshToken.ObsoleteToken refresh) "")
    then Err (invalidErr clientID token)
    else if CompletelyExpired (refreshTokenPolicy s) (RefreshToken.CreatedAt refresh)
    then Err expiredErr
    else if ExpiredBecauseUnused (refreshTokenPolicy s) (RefreshToken.LastUsed refresh)
    then Err expiredErr
    else Ok refresh
  end.

(** ** Identity refresh *)

(** The [switch] choosing the connector data: [None] is the return with
    an internal error. *)
Definition chooseConnectorData (session : OfflineSessions.t + storage.error)
           (refresh : RefreshToken.t) : option (list byte) :=
  match session with
  | inr err => if negb (storage.isNotFound err) then None else Some []
  | inl session =>
    if (0 <? Z.of_nat (List.length (RefreshToken.ConnectorData refresh)))
    then Some (RefreshToken.ConnectorData refresh)
    else Some (OfflineSessions.ConnectorData session)
  end.

Definition seedIdentity (refresh : RefreshToken.t) (connectorData : list byte)
  : Identity.t :=
  let claims := RefreshToken.Claims refresh in
  {| Identity.UserID := Claims.UserID claims;
     Identity.Username := Claims.Username claims;
     Identity.PreferredUsername := Claims.PreferredUsername claims;
     Identity.Email := Claims.Email claims;
     Identity.EmailVerified := Claims.EmailVerified claims;
     Identity.Groups := Claims.Groups claims;
     Identity.ConnectorData := connectorData |}.

(** The part of [refreshWithConnector] after the identity is seeded: the
    reuse short-circuit, then the upstream refresh when the connector
    implements it. *)
Definition refreshIdentity (s : Server) (token : internal.RefreshToken.t) (refresh : RefreshToken.t)
           (scopes : list string) (conn : Connector) (ident : Identity.t)
  : result Identity.t :=
  if AllowedToReuse (refreshTokenPolicy s) (RefreshToken.LastUsed refresh)
     && String.eqb (internal.RefreshToken.Token token) (RefreshToken.ObsoleteToken refresh)
  then Ok ident
  else match conn with
       | RefreshConnector Refresh =>
         match Refresh scopes ident with
         | None => Err newInternalServerError
         | Some newIdent => Ok newIdent
         end
       | PlainConnector => Ok ident
       end.

Definition refreshWithConnector (s : Server) (st : storage.t) (token : internal.RefreshToken.t)
           (refresh : RefreshToken.t) (scopes : list string) : result Identity.t :=
  match chooseConnectorData
          (storage.GetOfflineSessions st (Claims.UserID (RefreshToken.Claims refresh))
                                      (RefreshToken.ConnectorID refresh))
          refresh with
  | None => Err newInternalServerError
  | Some connectorData =>
    match getConnector s (RefreshToken.ConnectorID refresh) with
    | None => Err newInternalServerError
    | Some conn =>
      refreshIdentity s token refresh scopes conn (seedIdentity refresh connectorData)
    end
  end.

(** ** Rotation *)

(** [old.Refresh[refresh.ClientID]] is a pointer: reading [.ID] through
    the nil pointer of a missing key panics. *)
Definition offlineSessionUpdater (refresh : RefreshToken.t) (ident : Identity.t)
           (lastUsed : Time) (old : OfflineSessions.t)
  : outcome (OfflineSessions.t * option storage.error) :=
  match OfflineSessions.Refresh old !! RefreshToken.ClientID refresh with
  | None => Panicked
  | Some ref =>
    if negb (String.eqb (RefreshTokenRef.ID ref) (RefreshToken.ID refresh))
    then Returned (old, Some (storage.Error "refresh token invalid"))
    else
      let ref' := RefreshTokenRef.mk (RefreshTokenRef.ID ref) (RefreshTokenRef.ClientID ref)
                                     (RefreshTokenRef.CreatedAt ref) lastUsed in
      Returned
        (OfflineSessions.mk (OfflineSessions.UserID old) (OfflineSessions.ConnID old)
                            (<[RefreshToken.ClientID refresh := ref']>
                               (OfflineSessions.Refresh old))
                            (Identity.ConnectorData ident),
         None)
  end.

Definition updateOfflineSession (s : Server) (st : storage.t) (refresh : RefreshToken.t)
           (ident : Identity.t) (lastUsed : Time) : outcome (option refreshError) * storage.t :=
  match storage.UpdateOfflineSessions st (Claims.UserID (RefreshToken.Claims refresh))
                                      (RefreshToken.ConnectorID refresh)
                                      (offlineSessionUpdater refresh ident lastUsed) with
  | (Panicked, st') => (Panicked, st')
  | (Returned (Some _), st') => (Returned (Some newInternalServerError), st')
  | (Returned None, st') => (Returned None, st')
  end.

(** The variables of [updateRefreshToken] that its updater closure
    assigns. *)
Record Captured := mkCaptured {
  newToken : internal.RefreshToken.t;
  lastUsed : Time
}.

Definition refreshTokenUpdater (s : Server) (token : internal.RefreshToken.t) (ident : Identity.t)
           (c : Captured) (old : RefreshToken.t)
  : (RefreshToken.t * option storage.error) * Captured :=
  let advance (obsolete : string) :=
      ((RefreshToken.mk
          (RefreshToken.ID old)
          (internal.RefreshToken.Token (newToken c))
          obsolete
          (RefreshToken.CreatedAt old)
          (lastUsed c)
          (RefreshToken.ClientID old)
          (RefreshToken.ConnectorID old)
          []
          (Claims.mk (Claims.UserID (RefreshToken.Claims old))
                     (Identity.Username ident)
                     (Identity.PreferredUsername ident)
                     (Identity.Email ident)
                     (Identity.EmailVerified ident)
                     (Identity.Groups ident))
          (RefreshToken.Scopes old)
          (RefreshToken.Nonce old),
        None), c) in
  if RotationEnabled (refreshTokenPolicy s) then
    if negb (String.eqb (RefreshToken.Token old) (internal.RefreshToken.Token token)) then
      if AllowedToReuse (refreshTokenPolicy s) (RefreshToken.LastUsed old)
         && String.eqb (RefreshToken.ObsoleteToken old) (internal.RefreshToken.Token token)
      then ((old, None),
            {| newToken := internal.RefreshToken.mk
                             (internal.RefreshToken.RefreshId (newToken c))
                             (RefreshToken.Token old);
               lastUsed := RefreshToken.LastUsed old |})
      else ((old, Some (storage.Error "refresh token claimed twice")), c)
    else advance (RefreshToken.Token old)
  else advance (RefreshToken.ObsoleteToken old).

(** With rotation disabled [newToken] is the pointer [token] itself; the
    updater assigns through [newToken] only with rotation enabled, where
    [newToken] is a fresh handle. *)
Definition updateRefreshToken (s : Server) (st : storage.t) (token : internal.RefreshToken.t)
           (refresh : RefreshToken.t) (ident : Identity.t)
  : outcome (result internal.RefreshToken.t) * storage.t :=
  let newToken0 :=
      if RotationEnabled (refreshTokenPolicy s)
      then internal.RefreshToken.mk (RefreshToken.ID refresh) (NewID s)
      else token in
  let '((err, c), st1) :=
      storage.UpdateRefreshToken st (RefreshToken.ID refresh)
                                 (refreshTokenUpdater s token ident)
                                 {| newToken := newToken0; lastUsed := now s |} in
  match err with
  | Some _ => (Returned (Err newInternalServerError), st1)
  | None =>
    match updateOfflineSession s st1 refresh ident (lastUsed c) with
    | (Panicked, st2) => (Panicked, st2)
    | (Returned (Some rerr), st2) => (Returned (Err rerr), st2)
    | (Returned None, st2) => (Returned (Ok (newToken c)), st2)
    end
  end.

(** ** Orchestration *)

(** What the handler writes to its [http.ResponseWriter]. *)
Inductive Response :=
| ErrorResponse (error : string) (error_description : Desc) (status : Z)
| AccessTokenResponse (id_token access_token refresh_token : string) (expiry : Time).

(** The stages of the pipeline, logged as the handler enters them. *)
Inductive Stage :=
| Extract
| Validate
| ReconcileScopes
| RefreshIdentity
| MintAccessToken
| MintIDToken
| Rotate
| Encode
| Respond.

Record Run := mkRun {
  store : storage.t;
  written : list Response;
  stages : list Stage;
  panicked : bool
}.

(** A handler step runs on the state of the request and either yields a
    value or has returned from the handler ([None]). *)
Definition Handler (A : Type) : Type := Run -> option A * Run.

Global Instance Handler_ret : MRet Handler := fun A a w => (Some a, w).

Global Instance Handler_bind : MBind Handler :=
  fun A B k m w => match m w with
                   | (Some a, w') => k a w'
                   | (None, w') => (None, w')
                   end.

Definition exit {A} : Handler A := fun w => (None, w).

Definition enter (g : Stage) : Handler unit :=
  fun w => (Some (), mkRun (store w) (written w) (stages w ++ [g]) (panicked w)).

Definition getStore : Handler storage.t := fun w => (Some (store w), w).

Definition putStore (st : storage.t) : Handler unit :=
  fun w => (Some tt, mkRun st (written w) (stages w) (panicked w)).

Definition panic {A} : Handler A :=
  fun w => (None, mkRun (store w) (written w) (stages w) true).

Definition write (resp : Response) : Handler unit :=
  fun w => (Some tt, mkRun (store w) (written w ++ [resp]) (stages w) (panicked w)).

(** Modelled from the spec: [tokenErrHelper] is declared outside this
    file; it writes the error response of the wire protocol, a JSON body
    with [error] and [error_description] under the given HTTP status. *)
Definition tokenErrHelper (typ : string) (description : Desc) (statusCode : Z)
  : Handler unit :=
  write (ErrorResponse typ description statusCode).

Definition refreshTokenErrHelper (err : refreshError) : Handler unit :=
  tokenErrHelper (msg err) (desc err) (code err).

(** [x, rerr := f(...); if rerr != nil { s.refreshTokenErrHelper(w, rerr); return }] *)
Definition check {A} (r : result A) : Handler A :=
  match r with
  | Ok a => mret a
  | Err rerr => refreshTokenErrHelper rerr;; exit
  end.

(** [x, err := f(...); if err != nil { s.refreshTokenErrHelper(w,
    newInternalServerError()); return }] *)
Definition checkInternal {A} (r : option A) : Handler A :=
  match r with
  | Some a => mret a
  | None => refreshTokenErrHelper newInternalServerError;; exit
  end.

(** The loop [for idx, group := range ident.Groups] writing each prefixed
    group back through the slice at its index. *)
Definition prefixGroups (connectorID : string) (groups : list string) : list string :=
  foldl (fun gs idx =>
           match gs !! idx with
           | Some group => <[idx := connectorID +:+ ":" +:+ group]> gs
           | None => gs
           end)
        groups (seq 0 (List.length groups)).

Definition withGroups (ident : Identity.t) (groups : list string) : Identity.t :=
  Identity.mk (Identity.UserID ident) (Identity.Username ident)
              (Identity.PreferredUsername ident) (Identity.Email ident)
              (Identity.EmailVerified ident) groups (Identity.ConnectorData ident).

Definition claimsOf (ident : Identity.t) : Claims.t :=
  {| Claims.UserID := Identity.UserID ident;
     Claims.Username := Identity.Username ident;
     Claims.PreferredUsername := Identity.PreferredUsername ident;
     Claims.Email := Identity.Email ident;
     Claims.EmailVerified := Identity.EmailVerified ident;
     Claims.Groups := Identity.Groups ident |}.

(** The block guarded by [s.oidcGroupsPrefix].  The loop assigns the
    elements of [ident.Groups] in place, so [ident] itself, as every
    later statement of the handler reads it, carries the prefixed
    groups. *)
Definition injectGroupsPrefix (s : Server) (refresh : RefreshToken.t) (ident : Identity.t)
  : Identity.t :=
  if oidcGroupsPrefix s
  then withGroups ident (prefixGroups (RefreshToken.ConnectorID refresh)
                                      (Identity.Groups ident))
  else ident.

Definition handleRefreshToken (s : Server) (r : http.Request) (client : Client.t)
  : Handler unit :=
  enter Extract;;
  token ← check (extractRefreshTokenFromRequest s r);
  enter Validate;;
  st ← getStore;
  refresh ← check (getRefreshTokenFromStorage s st (Client.ID client) token);
  enter ReconcileScopes;;
  scopes ← check (getRefreshScopes r refresh);
  enter RefreshIdentity;;
  st ← getStore;
  ident ← check (refreshWithConnector s st token refresh scopes);
  let ident := injectGroupsPrefix s refresh ident in
  let claims := claimsOf ident in
  enter MintAccessToken;;
  accessToken ← checkInternal
    (newAccessToken s (Client.ID client) claims scopes (RefreshToken.Nonce refresh)
                    (RefreshToken.ConnectorID refresh));
  enter MintIDToken;;
  idt ← checkInternal
    (newIDToken s (Client.ID client) claims scopes (RefreshToken.Nonce refresh)
                accessToken "" (RefreshToken.ConnectorID refresh));
  let '(idToken, expiry) := idt in
  enter Rotate;;
  st ← getStore;
  let '(res, st') := updateRefreshToken s st token refresh ident in
  putStore st';;
  match res with
  | Panicked => panic
  | Returned res =>
    newToken ← check res;
    enter Encode;;
    rawNewToken ← checkInternal (Marshal s newToken);
    enter Respond;;
    write (AccessTokenResponse idToken accessToken rawNewToken expiry)
  end.

(** A request served from a storage state. *)
Definition serve (s : Server) (st : storage.t) (r : http.Request) (client : Client.t)
  : Run :=
  snd (handleRefreshToken s r client (mkRun st [] [] false)).

(** ** Vocabulary of the properties *)

(** The order in which the handler runs its stages. *)
Definition pipeline : list Stage :=
  [Extract; Validate; ReconcileScopes; RefreshIdentity; MintAccessToken;
   MintIDToken; Rotate; Encode; Respond].

Definition position (g : Stage) : nat :=
  match g with
  | Extract => 0 | Validate => 1 | ReconcileScopes => 2 | RefreshIdentity => 3
  | MintAccessToken => 4 | MintIDToken => 5 | Rotate => 6 | Encode => 7
  | Respond => 8
  end%nat.

(** The stages run by a request that stops in stage [g]. *)
Definition through (g : Stage) : list Stage := take (S (position g)) pipeline.

(** A request fails in stage [g] with error [rerr]: every earlier stage
    yields a value and stage [g] yields the error.  Only the stages
    before the rotator are listed. *)
Inductive FailsAt (s : Server) (st : storage.t) (r : http.Request) (client : Client.t)
  : Stage -> refreshError -> Prop :=
| fails_extract rerr :
    extractRefreshTokenFromRequest s r = Err rerr ->
    FailsAt s st r client Extract rerr
| fails_validate token rerr :
    extractRefreshTokenFromRequest s r = Ok token ->
    getRefreshTokenFromStorage s st (Client.ID client) token = Err rerr ->
    FailsAt s st r client Validate rerr
| fails_scopes token refresh rerr :
    extractRefreshTokenFromRequest s r = Ok token ->
    getRefreshTokenFromStorage s st (Client.ID client) token = Ok refresh ->
    getRefreshScopes r refresh = Err rerr ->
    FailsAt s st r client ReconcileScopes rerr
| fails_identity token refresh scopes rerr :
    extractRefreshTokenFromRequest s r = Ok token ->
    getRefreshTokenFromStorage s st (Client.ID client) token = Ok refresh ->
    getRefreshScopes r refresh = Ok scopes ->
    refreshWithConnector s st token refresh scopes = Err rerr ->
    FailsAt s st r client RefreshIdentity rerr
| fails_access token refresh scopes ident :
    extractRefreshTokenFromRequest s r = Ok token ->
    getRefreshTokenFromStorage s st (Client.ID client) token = Ok refresh ->
    getRefreshScopes r refresh = Ok scopes ->
    refreshWithConnector s st token refresh scopes = Ok ident ->
    newAccessToken s (Client.ID client) (claimsOf (injectGroupsPrefix s refresh ident))
                   scopes (RefreshToken.Nonce refresh) (RefreshToken.ConnectorID refresh)
    = None ->
    FailsAt s st r client MintAccessToken newInternalServerError
| fails_id token refresh scopes ident accessToken :
    extractRefreshTokenFromRequest s r = Ok token ->
    getRefreshTokenFromStorage s st (Client.ID client) token = Ok refresh ->
    getRefreshScopes r refresh = Ok scopes ->
    refreshWithConnector s st token refresh scopes = Ok ident ->
    newAccessToken s (Client.ID client) (claimsOf (injectGroupsPrefix s refresh ident))
                   scopes (RefreshToken.Nonce refresh) (RefreshToken.ConnectorID refresh)
    = Some accessToken ->
    newIDToken s (Client.ID client) (claimsOf (injectGroupsPrefix s refresh ident))
               scopes (RefreshToken.Nonce refresh) accessToken ""
               (RefreshToken.ConnectorID refresh)
    = None ->
    FailsAt s st r client MintIDToken newInternalServerError.

(** The fields that bind a grant. *)
Definition binding (rt : RefreshToken.t) : string * string * string * Time * string :=
  (RefreshToken.ID rt, RefreshToken.ClientID rt, RefreshToken.ConnectorID rt,
   RefreshToken.CreatedAt rt, Claims.UserID (RefreshToken.Claims rt)).

(** The record a successful use leaves behind: the secrets and the
    instant it is given, the claims of the identity except the user id,
    no connector data, every other field as in [old]. *)
Definition advanced (old : RefreshToken.t) (secret obsolete : string) (instant : Time)
           (ident : Identity.t) : RefreshToken.t :=
  RefreshToken.mk
    (RefreshToken.ID old) secret obsolete (RefreshToken.CreatedAt old) instant
    (RefreshToken.ClientID old) (RefreshToken.ConnectorID old) []
    (Claims.mk (Claims.UserID (RefreshToken.Claims old))
               (Identity.Username ident) (Identity.PreferredUsername ident)
               (Identity.Email ident) (Identity.EmailVerified ident)
               (Identity.Groups ident))
    (RefreshToken.Scopes old) (RefreshToken.Nonce old).

(** The session after its reference for the grant's client was stamped. *)
Definition stamped (session : OfflineSessions.t) (clientID : string)
           (ref : RefreshTokenRef.t) (instant : Time) (data : list byte)
  : OfflineSessions.t :=
  OfflineSessions.mk
    (OfflineSessions.UserID session) (OfflineSessions.ConnID session)
    (<[clientID := RefreshTokenRef.mk (RefreshTokenRef.ID ref)
                                      (RefreshTokenRef.ClientID ref)
                                      (RefreshTokenRef.CreatedAt ref) instant]>
       (OfflineSessions.Refresh session))
    data.

(** The key of the offline session of a grant. *)
Definition sessionKey (refresh : RefreshToken.t) : string * string :=
  (Claims.UserID (RefreshToken.Claims refresh), RefreshToken.ConnectorID refresh).

(** A request reaches the rotator: every stage before it yields a value,
    the two minters included. *)
Definition ReachesRotator (s : Server) (st : storage.t) (r : http.Request)
           (client : Client.t) (token : internal.RefreshToken.t) (refresh : RefreshToken.t)
           (scopes : list string) (ident : Identity.t) (accessToken idToken : string)
           (expiry : Time) : Prop :=
  extractRefreshTokenFromRequest s r = Ok token
  /\ getRefreshTokenFromStorage s st (Client.ID client) token = Ok refresh
  /\ getRefreshScopes r refresh = Ok scopes
  /\ refreshWithConnector s st token refresh scopes = Ok ident
  /\ newAccessToken s (Client.ID client) (claimsOf (injectGroupsPrefix s refresh ident))
                    scopes (RefreshToken.Nonce refresh) (RefreshToken.ConnectorID refresh)
     = Some accessToken
  /\ newIDToken s (Client.ID client) (claimsOf (injectGroupsPrefix s refresh ident))
                scopes (RefreshToken.Nonce refresh) accessToken ""
                (RefreshToken.ConnectorID refresh)
     = Some (idToken, expiry).

(** The current secret, the obsolete secret and the last use of a grant. *)
Definition secretsOf (rt : RefreshToken.t) : string * string * Time :=
  (RefreshToken.Token rt, RefreshToken.ObsoleteToken rt, RefreshToken.LastUsed rt).

(** A scope field made of white space only: every rune is a space. *)
Definition onlyWhitespace (scope : string) : bool :=
  forallb (fun p => unicode.IsSpace (fst p)) (utf8.runes scope).

(** The three conditions under which a secret other than the current one
    is redeemable. *)
Definition reusable (s : Server) (stored : RefreshToken.t)
           (token : internal.RefreshToken.t) : Prop :=
  AllowedToReuse (refreshTokenPolicy s) (RefreshToken.LastUsed stored) = true
  /\ RefreshToken.ObsoleteToken stored = internal.RefreshToken.Token token
  /\ RefreshToken.ObsoleteToken stored <> EmptyString.

Definition accepts (s : Server) (st : storage.t) (clientID : string)
           (token : internal.RefreshToken.t) : Prop :=
  exists refresh, getRefreshTokenFromStorage s st clientID token = Ok refresh.

(** The reading of the validator under which a mismatching secret is
    accepted exactly when it is reusable. *)
Definition mismatch_accepted_iff_reusable : Prop :=
  forall s st clientID token stored,
    storage.GetRefresh st (internal.RefreshToken.RefreshId token) = inl stored ->
    RefreshToken.Token stored <> internal.RefreshToken.Token token ->
    (accepts s st clientID token <-> reusable s stored token).

(** The reading of the identity refresher under which connector data on
    the record always reaches the seeded identity; a plain connector
    returns the seeded identity as it is. *)
Definition record_connector_data_always_seeded : Prop :=
  forall s st token refresh scopes ident,
    RefreshToken.ConnectorData refresh <> [] ->
    getConnector s (RefreshToken.ConnectorID refresh) = Some PlainConnector ->
    refreshWithConnector s st token refresh scopes = Ok ident ->
    Identity.ConnectorData ident = RefreshToken.ConnectorData refresh.

(** ** Concrete servers, records and requests *)

Module Scenario.

(** A codec for the scenarios: the id and the secret around a bar. *)
Definition decode (code : string) : option internal.RefreshToken.t :=
  match index 0 "|" code with
  | Some n => Some (internal.RefreshToken.mk (substring 0 n code)
                              (substring (n + 1) (String.length code - n - 1) code))
  | None => None
  end.

Definition encode (h : internal.RefreshToken.t) : option string :=
  Some (internal.RefreshToken.RefreshId h +:+ "|" +:+ internal.RefreshToken.Token h).

(** Minters that show the groups they were given. *)
Definition mintAccess (clientID : string) (claims : Claims.t) (scopes : list string)
           (nonce connID : string) : option string :=
  Some ("access[" +:+ String.concat "," (Claims.Groups claims) +:+ "]").

Definition mintID (clientID : string) (claims : Claims.t) (scopes : list string)
           (nonce accessToken code connID : string) : option (string * Time) :=
  Some ("id[" +:+ String.concat "," (Claims.Groups claims) +:+ "]", 3600).

Definition noMint (clientID : string) (claims : Claims.t) (scopes : list string)
           (nonce connID : string) : option string := None.

(** An upstream whose refresh answers the groups [a, b]. *)
Definition ldap : Connector :=
  RefreshConnector (fun _ ident => Some (withGroups ident ["a"; "b"]%string)).

Definition connectors (conn : Connector) (id : string) : option Connector :=
  if String.eqb id "ldap" then Some conn else None.

Definition serverAt (instant : Time) (fresh : string) (prefix : bool) (conn : Connector)
           (policy : RefreshTokenPolicy) : Server :=
  {| refreshTokenPolicy := policy; oidcGroupsPrefix := prefix; now := instant;
     getConnector := connectors conn;
     newAccessToken := mintAccess; newIDToken := mintID; NewID := fresh;
     Unmarshal := decode; Marshal := encode |}.

(** The server at instant 100, about to draw the secret [T2]. *)
Definition server : bool -> Connector -> RefreshTokenPolicy -> Server :=
  serverAt 100 "T2".

Definition claims : Claims.t := Claims.mk "u" "user" "" "u@x" true ["a"]%string.

Definition scopes : list string := ["openid"; "email"; "groups"]%string.

(** The grant before any rotation. *)
Definition R1 : RefreshToken.t :=
  RefreshToken.mk "R1" "T1" "" 0 0 "C1" "ldap" [] claims scopes "n".

(** The grant after a rotation at instant 95. *)
Definition R1rotated : RefreshToken.t :=
  RefreshToken.mk "R1" "T2" "T1" 0 95 "C1" "ldap" [] claims scopes "n".

(** The grant before migration, its connector data still on the record. *)
Definition R1legacy : RefreshToken.t :=
  RefreshToken.mk "R1" "T1" "" 0 0 "C1" "ldap" [Byte.x01] claims scopes "n".

Definition session (lastUsed : Time) (data : list byte) : OfflineSessions.t :=
  OfflineSessions.mk "u" "ldap"
    {[ "C1"%string := RefreshTokenRef.mk "R1" "C1" 0 lastUsed ]} data.

Definition healthy (op : storage.Op) : bool := false.

Definition getRefreshDown (op : storage.Op) : bool :=
  match op with storage.OpGetRefresh => true | _ => false end.

Definition getSessionDown (op : storage.Op) : bool :=
  match op with storage.OpGetOfflineSessions => true | _ => false end.

Definition stateOf (rt : RefreshToken.t) (lastUsed : Time) (failing : storage.Op -> bool)
  : storage.t :=
  storage.mk {[ "R1"%string := rt ]}
             {[ ("u"%string, "ldap"%string) := session lastUsed [] ]} failing.

(** The legacy grant next to a session that holds newer connector data. *)
Definition stateMigrating : storage.t :=
  storage.mk {[ "R1"%string := R1legacy ]}
             {[ ("u"%string, "ldap"%string) := session 0 [Byte.x02] ]} healthy.

(** The grant alone, its offline session missing. *)
Definition stateWithoutSession (rt : RefreshToken.t) : storage.t :=
  storage.mk {[ "R1"%string := rt ]} ∅ healthy.

Definition request (tok scope : string) : http.Request :=
  {| http.PostForm := {[ "refresh_token"%string := [tok]; "scope"%string := [scope] ]} |}.

Definition client : Client.t := Client.mk "C1".

(** A grant issued before secrets existed: its token is empty. *)
Definition R1bare : RefreshToken.t :=
  RefreshToken.mk "R1" "" "" 0 0 "C1" "ldap" [] claims scopes "n".

(** An upstream whose refresh fails. *)
Definition brokenLdap : Connector := RefreshConnector (fun _ _ => None).

(** The grant next to a session whose reference names another grant. *)
Definition stateSuperseded : storage.t :=
  storage.mk {[ "R1"%string := R1 ]}
             {[ ("u"%string, "ldap"%string) :=
                  OfflineSessions.mk "u" "ldap"
                    {[ "C1"%string := RefreshTokenRef.mk "R0" "C1" 0 0 ]} [] ]}
             healthy.

(** The grant next to a session that has no reference for its client. *)
Definition stateNoReference : storage.t :=
  storage.mk {[ "R1"%string := R1 ]}
             {[ ("u"%string, "ldap"%string) := OfflineSessions.mk "u" "ldap" ∅ [] ]}
             healthy.

(** A second grant of the same user, held by another client. *)
Definition R9 : RefreshToken.t :=
  RefreshToken.mk "R9" "S1" "" 0 0 "C9" "ldap" [] claims scopes "n".

Definition stateTwoGrants : storage.t :=
  storage.mk {[ "R1"%string := R1; "R9"%string := R9 ]}
             {[ ("u"%string, "ldap"%string) :=
                  OfflineSessions.mk "u" "ldap"
                    {[ "C1"%string := RefreshTokenRef.mk "R1" "C1" 0 0;
                       "C9"%string := RefreshTokenRef.mk "R9" "C9" 0 0 ]} [] ]}
             healthy.

(** A codec that cannot encode. *)
Definition noEncode (h : internal.RefreshToken.t) : option string := None.

End Scenario.

(** ** Proof steps *)

Ltac eqb_cases :=
  repeat match goal with
         | H : String.eqb _ _ = true |- _ => apply String.eqb_eq in H
         | H : String.eqb _ _ = false |- _ => apply String.eqb_neq in H
         end.

Ltac step_handler :=
  cbv [mbind Handler_bind mret Handler_ret enter getStore putStore exit write
       check checkInternal refreshTokenErrHelper tokenErrHelper
       store written stages panicked].

Ltac run_handler :=
  unfold serve, handleRefreshToken; step_handler;
  repeat match goal with
         | H : _ = _ |- _ => rewrite H; clear H; step_handler
         end.

Ltac reach_rotator H :=
  destruct H as (H1 & H2 & H3 & H4 & H5 & H6);
  unfold serve, handleRefreshToken; step_handler;
  rewrite H1; step_handler; rewrite H2; step_handler; rewrite H3; step_handler;
  rewrite H4; step_handler; rewrite H5; step_handler; rewrite H6; step_handler.

(** * Properties *)

(** ** Library facts *)

Lemma contains_elem_of (arr : list string) (item : string) :
  contains arr item = true ↔ item ∈ arr.
Proof.
  induction arr as [|x arr IH]; simpl.
  - split; [discriminate | intros H; inversion H].
  - destruct (String.eqb x item) eqn:E.
    + apply String.eqb_eq in E. subst. split; [intros _; left | done].
    + apply String.eqb_neq in E. rewrite IH. split.
      * intros H. by right.
      * intros H. inversion H; subst; [congruence | done].
Qed.

Lemma unauthorized_filter (stored requested : list string) :
  unauthorized stored requested = filter (λ x, x ∉ stored) requested.
Proof.
  induction requested as [|x requested IH]; simpl; [done|].
  rewrite filter_cons. destruct (contains stored x) eqn:E; simpl.
  - apply contains_elem_of in E. rewrite decide_False by tauto. done.
  - rewrite decide_True; [by rewrite IH|].
    intros H. apply contains_elem_of in H. congruence.
Qed.

Lemma filter_nil_Forall (stored requested : list string) :
  filter (λ x, x ∉ stored) requested = [] ↔ Forall (λ x, x ∈ stored) requested.
Proof.
  induction requested as [|x requested IH]; simpl.
  - split; [constructor | done].
  - rewrite filter_cons. destruct (decide (x ∉ stored)) as [Hx|Hx].
    + split; [discriminate|]. intros H. inversion H; subst. done.
    + rewrite IH. split.
      * intros H. constructor; [|done]. by destruct (decide (x ∈ stored)).
      * intros H. by inversion H.
Qed.

Lemma fieldsOf_all_space (rs : list (Z * string)) :
  forallb (fun p => unicode.IsSpace (fst p)) rs = true ->
  strings.fieldsOf unicode.IsSpace rs None = [].
Proof.
  induction rs as [|[r bytes] rs IH]; simpl; [done|].
  intros H. apply andb_prop in H as [Hr Hrs].
  rewrite Hr. simpl. by apply IH.
Qed.

Lemma Fields_onlyWhitespace (scope : string) :
  onlyWhitespace scope = true -> strings.Fields scope = [].
Proof. apply fieldsOf_all_space. Qed.

Lemma runes_ascii (c : ascii) (rest : string) :
  utf8.byteZ c < 128 ->
  utf8.runes (String c rest)
  = (utf8.byteZ c, String c EmptyString) :: utf8.runes rest.
Proof.
  intros Hc. unfold utf8.runes. simpl.
  apply Z.ltb_lt in Hc. rewrite Hc. simpl. by destruct rest.
Qed.

(** A field of ASCII blanks (tab, line feed, vertical tab, form feed,
    carriage return, space) is white space only. *)
Lemma ascii_blanks_onlyWhitespace (scope : string) :
  Forall (fun c => In (utf8.byteZ c) [9; 10; 11; 12; 13; 32])
         (list_ascii_of_string scope) ->
  onlyWhitespace scope = true.
Proof.
  induction scope as [|c scope IH]; simpl; [done|].
  intros H. inversion H as [|? ? Hc Hrest]; subst.
  unfold onlyWhitespace. rewrite runes_ascii.
  - simpl. fold (onlyWhitespace scope). rewrite (IH Hrest), andb_true_r.
    simpl in Hc.
    destruct Hc as [<-|[<-|[<-|[<-|[<-|[<-|[]]]]]]]; reflexivity.
  - simpl in Hc. destruct Hc as [<-|[<-|[<-|[<-|[<-|[<-|[]]]]]]]; lia.
Qed.

Example Fields_ascii :
  strings.Fields "  openid   email groups " = ["openid"; "email"; "groups"]%string.
Proof. reflexivity. Qed.

(** A no-break space (bytes C2 A0) separates fields as a blank does. *)
Example Fields_no_break_space :
  strings.Fields ("a" +:+ String (ascii_of_nat 194) (String (ascii_of_nat 160) "b"))
  = ["a"; "b"]%string.
Proof. reflexivity. Qed.

(** A stray continuation byte is not a space and stays in its field. *)
Example Fields_invalid_byte :
  strings.Fields ("a" +:+ String (ascii_of_nat 160) "b")
  = ["a" +:+ String (ascii_of_nat 160) "b"].
Proof. reflexivity. Qed.

(** ** Scope reconciliation *)

(** C8: an empty scope field gives the stored scopes; otherwise the field
    is split on white space, the request succeeds with the requested list
    as presented when every requested scope is among the stored scopes,
    and fails with invalid_request (400) listing the offending scopes, in
    request order, when one is not. *)
Theorem getRefreshScopes_reconciles (r : http.Request) (refresh : RefreshToken.t) :
  let scope := http.PostFormValue r "scope" in
  let stored := RefreshToken.Scopes refresh in
  let requested := strings.Fields scope in
  let offenders := filter (λ x, x ∉ stored) requested in
  (scope = EmptyString -> getRefreshScopes r refresh = Ok stored)
  /\ (scope <> EmptyString -> Forall (λ x, x ∈ stored) requested ->
      getRefreshScopes r refresh = Ok requested)
  /\ (scope <> EmptyString -> ~ Forall (λ x, x ∈ stored) requested ->
      offenders <> []
      /\ getRefreshScopes r refresh =
         Err {| msg := errInvalidRequest;
                code := 400;
                desc := QuotedList "Requested scopes contain unauthorized scope(s): "
                                   offenders "." |}).
Proof.
  intros scope stored requested offenders. unfold getRefreshScopes.
  fold scope. fold stored. fold requested.
  rewrite unauthorized_filter. fold offenders.
  split; [|split].
  - intros ->. done.
  - intros Hne Hall. apply String.eqb_neq in Hne. rewrite Hne.
    apply filter_nil_Forall in Hall. unfold offenders. rewrite Hall. done.
  - intros Hne Hnot. apply String.eqb_neq in Hne. rewrite Hne.
    assert (offenders <> []) as Hoff.
    { intros H. apply Hnot. by apply filter_nil_Forall. }
    split; [done|].
    destruct offenders; [done|]. done.
Qed.

Lemma getRefreshScopes_reconciles_witness :
  getRefreshScopes (Scenario.request "R1|T1" "") Scenario.R1 = Ok Scenario.scopes
  /\ getRefreshScopes (Scenario.request "R1|T1" "email  openid email") Scenario.R1
     = Ok ["email"; "openid"; "email"]%string
  /\ getRefreshScopes (Scenario.request "R1|T1" "openid profile") Scenario.R1
     = Err (newBadRequestError
              (QuotedList "Requested scopes contain unauthorized scope(s): "
                          ["profile"%string] ".")).
Proof.
  split; [|split].
  - apply (proj1 (getRefreshScopes_reconciles
                    (Scenario.request "R1|T1" "") Scenario.R1)).
    reflexivity.
  - apply (proj1 (proj2 (getRefreshScopes_reconciles
                    (Scenario.request "R1|T1" "email  openid email") Scenario.R1))).
    + discriminate.
    + apply (bool_decide_unpack _). vm_compute. reflexivity.
  - apply (proj2 (proj2 (getRefreshScopes_reconciles
                    (Scenario.request "R1|T1" "openid profile") Scenario.R1))).
    + discriminate.
    + apply (bool_decide_unpack _). vm_compute. reflexivity.
Defined.

(** C10: a scope field that is not empty but holds white space only
    reconciles to the empty scope list, not to the stored scopes. *)
Theorem getRefreshScopes_whitespace_only (r : http.Request) (refresh : RefreshToken.t) :
  http.PostFormValue r "scope" <> EmptyString ->
  onlyWhitespace (http.PostFormValue r "scope") = true ->
  getRefreshScopes r refresh = Ok [].
Proof.
  intros Hne Hws. unfold getRefreshScopes.
  apply String.eqb_neq in Hne. rewrite Hne.
  rewrite (Fields_onlyWhitespace _ Hws). done.
Qed.

Lemma getRefreshScopes_whitespace_only_witness :
  getRefreshScopes (Scenario.request "R1|T1" "  ") Scenario.R1 = Ok []
  /\ RefreshToken.Scopes Scenario.R1 <> [].
Proof.
  split.
  - apply getRefreshScopes_whitespace_only; [discriminate | reflexivity].
  - discriminate.
Defined.

(** ** Validation *)

Lemma validator_not_found s st clientID token :
  storage.GetRefresh st (internal.RefreshToken.RefreshId token) = inr storage.ErrNotFound ->
  getRefreshTokenFromStorage s st clientID token = Err (invalidErr clientID token).
Proof. intros H. unfold getRefreshTokenFromStorage. by rewrite H. Qed.

Lemma validator_storage_error s st clientID token text :
  storage.GetRefresh st (internal.RefreshToken.RefreshId token) = inr (storage.Error text) ->
  getRefreshTokenFromStorage s st clientID token = Err newInternalServerError.
Proof. intros H. unfold getRefreshTokenFromStorage. by rewrite H. Qed.

(** The client binding is checked before the secret and the expiry: a
    record of another client is refused as invalid_grant whatever its
    secret and age. *)
Lemma validator_wrong_client s st clientID token stored :
  storage.GetRefresh st (internal.RefreshToken.RefreshId token) = inl stored ->
  RefreshToken.ClientID stored <> clientID ->
  getRefreshTokenFromStorage s st clientID token
  = Err {| msg := errInvalidGrant; code := 400;
           desc := desc (invalidErr clientID token) |}.
Proof.
  intros H Hne. unfold getRefreshTokenFromStorage. rewrite H.
  apply String.eqb_neq in Hne. by rewrite Hne.
Qed.

(** The secret is checked before the expiry: a secret that is neither
    current nor reusable is refused as invalid, expired or not. *)
Lemma validator_double_use s st clientID token stored :
  storage.GetRefresh st (internal.RefreshToken.RefreshId token) = inl stored ->
  RefreshToken.ClientID stored = clientID ->
  RefreshToken.Token stored <> internal.RefreshToken.Token token ->
  ~ reusable s stored token ->
  getRefreshTokenFromStorage s st clientID token = Err (invalidErr clientID token).
Proof.
  intros H Hc Hne Hnot. unfold getRefreshTokenFromStorage. rewrite H.
  apply String.eqb_eq in Hc. rewrite Hc. apply String.eqb_neq in Hne. rewrite Hne.
  simpl.
  destruct (AllowedToReuse _ _) eqn:Ha; simpl; [|done].
  destruct (String.eqb (RefreshToken.ObsoleteToken stored)
                       (internal.RefreshToken.Token token)) eqn:Ho;
    simpl; [|done].
  destruct (String.eqb (RefreshToken.ObsoleteToken stored) "") eqn:He; simpl; [done|].
  eqb_cases. exfalso. apply Hnot. by repeat split.
Qed.

(** A secret that passes the match, current or reusable, is then held
    against the absolute expiry and after it the idle expiry. *)
Lemma validator_expiry s st clientID token stored :
  storage.GetRefresh st (internal.RefreshToken.RefreshId token) = inl stored ->
  RefreshToken.ClientID stored = clientID ->
  RefreshToken.Token stored = internal.RefreshToken.Token token \/ reusable s stored token ->
  getRefreshTokenFromStorage s st clientID token
  = if CompletelyExpired (refreshTokenPolicy s) (RefreshToken.CreatedAt stored)
    then Err expiredErr
    else if ExpiredBecauseUnused (refreshTokenPolicy s) (RefreshToken.LastUsed stored)
         then Err expiredErr
         else Ok stored.
Proof.
  intros H Hc Hpass. unfold getRefreshTokenFromStorage. rewrite H.
  apply String.eqb_eq in Hc. rewrite Hc. simpl.
  destruct Hpass as [Heq | (Ha & Ho & He)].
  - apply String.eqb_eq in Heq. rewrite Heq. done.
  - rewrite Ha. apply String.eqb_eq in Ho. rewrite Ho.
    apply String.eqb_neq in He. rewrite He. simpl.
    by rewrite andb_false_r.
Qed.

(** C3, as claimed, fails: a reusable obsolete secret presented for a
    grant past its absolute lifetime is refused. *)
Lemma mismatch_accepted_iff_reusable_fails : ~ mismatch_accepted_iff_reusable.
Proof.
  intros H.
  pose (s := Scenario.server false Scenario.ldap (policyAt true 10 100 0 101)).
  pose (st := Scenario.stateOf Scenario.R1rotated 95 Scenario.healthy).
  destruct (H s st "C1"%string (internal.RefreshToken.mk "R1" "T1") Scenario.R1rotated) as [_ Hacc].
  - reflexivity.
  - discriminate.
  - destruct Hacc as [refresh Hrefresh].
    + repeat split. discriminate.
    + vm_compute in Hrefresh. discriminate.
Qed.

(** C3, amended: once the record is loaded and bound to the client, a
    secret other than the current one is accepted iff it is reusable
    (window open, equal to the obsolete secret, obsolete secret not
    empty) and the grant is neither completely expired nor expired
    because unused; a secret that is not reusable is refused as
    invalid_request (400). *)
Theorem validator_mismatch s st clientID token stored :
  storage.GetRefresh st (internal.RefreshToken.RefreshId token) = inl stored ->
  RefreshToken.ClientID stored = clientID ->
  RefreshToken.Token stored <> internal.RefreshToken.Token token ->
  (accepts s st clientID token <->
   reusable s stored token
   /\ CompletelyExpired (refreshTokenPolicy s) (RefreshToken.CreatedAt stored) = false
   /\ ExpiredBecauseUnused (refreshTokenPolicy s) (RefreshToken.LastUsed stored) = false)
  /\ (~ reusable s stored token ->
      exists rerr, getRefreshTokenFromStorage s st clientID token = Err rerr
                   /\ msg rerr = errInvalidRequest /\ code rerr = 400).
Proof.
  intros H Hc Hne. split.
  - split.
    + intros [refresh Hacc].
      assert (reusable s stored token) as Hre.
      { destruct (AllowedToReuse (refreshTokenPolicy s) (RefreshToken.LastUsed stored))
          eqn:Ha;
        destruct (String.eqb (RefreshToken.ObsoleteToken stored)
                             (internal.RefreshToken.Token token)) eqn:Ho;
        destruct (String.eqb (RefreshToken.ObsoleteToken stored) "") eqn:He;
        eqb_cases;
        try (by repeat split);
        rewrite validator_double_use with (stored := stored) in Hacc;
        try done; unfold reusable; rewrite ?Ha; intros (? & ? & ?); congruence. }
      split; [done|].
      rewrite validator_expiry with (stored := stored) in Hacc by auto.
      destruct (CompletelyExpired _ _); [done|].
      destruct (ExpiredBecauseUnused _ _); done.
    + intros (Hre & Hce & Hidle). exists stored.
      rewrite validator_expiry with (stored := stored) by auto.
      by rewrite Hce, Hidle.
  - intros Hnot. exists (invalidErr clientID token).
    split; [by apply validator_double_use with (stored := stored) | done].
Qed.

Lemma validator_mismatch_witness :
  accepts (Scenario.server false Scenario.ldap (policyAt true 10 0 0 101))
          (Scenario.stateOf Scenario.R1rotated 95 Scenario.healthy)
          "C1" (internal.RefreshToken.mk "R1" "T1").
Proof.
  apply (proj1 (validator_mismatch
                  (Scenario.server false Scenario.ldap (policyAt true 10 0 0 101))
                  (Scenario.stateOf Scenario.R1rotated 95 Scenario.healthy)
                  "C1" (internal.RefreshToken.mk "R1" "T1") Scenario.R1rotated
                  eq_refl eq_refl ltac:(discriminate))).
  repeat split. discriminate.
Defined.

(** C5, the failing case: a storage failure other than not-found on load
    is answered with HTTP 500 under the error code invalid_request, not
    server_error. *)
Theorem storage_failure_answers_invalid_request :
  let s := Scenario.server false Scenario.ldap (policyAt true 0 0 0 100) in
  let st := Scenario.stateOf Scenario.R1 0 Scenario.getRefreshDown in
  getRefreshTokenFromStorage s st "C1" (internal.RefreshToken.mk "R1" "T1")
  = Err {| msg := "invalid_request"; code := 500; desc := Text "" |}
  /\ written (serve s st (Scenario.request "R1|T1" "") Scenario.client)
     = [ErrorResponse "invalid_request" (Text "") 500]
  /\ msg newInternalServerError <> errServerError.
Proof. repeat split. discriminate. Qed.

(** ** Identity refresh *)

(** C4, as claimed, fails: with the offline session missing, connector
    data on the record does not reach the seeded identity. *)
Lemma record_connector_data_always_seeded_fails : ~ record_connector_data_always_seeded.
Proof.
  intros H.
  specialize (H (Scenario.server false PlainConnector (policyAt true 0 0 0 100))
                (Scenario.stateWithoutSession Scenario.R1legacy)
                (internal.RefreshToken.mk "R1" "T1") Scenario.R1legacy Scenario.scopes
                (seedIdentity Scenario.R1legacy [])).
  simpl in H. discriminate H; [discriminate | reflexivity | reflexivity].
Qed.

(** C4, amended: when the offline session loads, the identity is seeded
    with the record's connector data if there is any and with the
    session's otherwise; when the session is not found the load is
    tolerated and the identity is seeded with no connector data, whatever
    the record holds; any other load error ends the refresh with an error
    of HTTP status 500. *)
Theorem connector_data_choice s st token refresh scopes :
  let load := storage.GetOfflineSessions st (Claims.UserID (RefreshToken.Claims refresh))
                                         (RefreshToken.ConnectorID refresh) in
  (forall session conn,
      load = inl session ->
      getConnector s (RefreshToken.ConnectorID refresh) = Some conn ->
      (RefreshToken.ConnectorData refresh <> [] ->
       refreshWithConnector s st token refresh scopes
       = refreshIdentity s token refresh scopes conn
           (seedIdentity refresh (RefreshToken.ConnectorData refresh)))
      /\ (RefreshToken.ConnectorData refresh = [] ->
          refreshWithConnector s st token refresh scopes
          = refreshIdentity s token refresh scopes conn
              (seedIdentity refresh (OfflineSessions.ConnectorData session))))
  /\ (forall conn,
         load = inr storage.ErrNotFound ->
         getConnector s (RefreshToken.ConnectorID refresh) = Some conn ->
         refreshWithConnector s st token refresh scopes
         = refreshIdentity s token refresh scopes conn (seedIdentity refresh []))
  /\ (forall text,
         load = inr (storage.Error text) ->
         exists rerr, refreshWithConnector s st token refresh scopes = Err rerr
                      /\ code rerr = 500).
Proof.
  intros load. unfold refreshWithConnector. fold load.
  split; [|split].
  - intros session conn Hload Hconn. rewrite Hload. simpl. split.
    + intros Hne. destruct (RefreshToken.ConnectorData refresh); [done|].
      simpl. by rewrite Hconn.
    + intros ->. simpl. by rewrite Hconn.
  - intros conn Hload Hconn. rewrite Hload. simpl. by rewrite Hconn.
  - intros text Hload. rewrite Hload. simpl. by eexists.
Qed.

Lemma connector_data_choice_witness :
  refreshWithConnector (Scenario.server false PlainConnector (policyAt true 0 0 0 100))
                       Scenario.stateMigrating (internal.RefreshToken.mk "R1" "T1")
                       Scenario.R1legacy Scenario.scopes
  = Ok (seedIdentity Scenario.R1legacy [Byte.x01]).
Proof.
  apply (proj1 (proj1 (connector_data_choice
                  (Scenario.server false PlainConnector (policyAt true 0 0 0 100))
                  Scenario.stateMigrating (internal.RefreshToken.mk "R1" "T1")
                  Scenario.R1legacy Scenario.scopes)
                  (Scenario.session 0 [Byte.x02]) PlainConnector eq_refl eq_refl)).
  discriminate.
Defined.

(** ** Rotation *)

Lemma storage_eta (st : storage.t) :
  storage.mk (storage.refreshTokens st) (storage.offlineSessions st) (storage.failing st)
  = st.
Proof. by destruct st. Qed.

Lemma updateOfflineSession_refreshTokens s st refresh ident lastUsed :
  storage.refreshTokens (snd (updateOfflineSession s st refresh ident lastUsed))
  = storage.refreshTokens st.
Proof.
  unfold updateOfflineSession, storage.UpdateOfflineSessions.
  destruct (storage.failing st _); [done|].
  destruct (storage.offlineSessions st !! _) as [session|]; [|done].
  destruct (offlineSessionUpdater _ _ _ _) as [[new [e|]]|]; done.
Qed.

(** The offline-session update on a session that holds the grant's
    reference. *)
Lemma updateOfflineSession_ok s st refresh ident lastUsed session ref :
  storage.failing st storage.OpUpdateOfflineSessions = false ->
  storage.offlineSessions st !! (Claims.UserID (RefreshToken.Claims refresh),
                                 RefreshToken.ConnectorID refresh) = Some session ->
  OfflineSessions.Refresh session !! RefreshToken.ClientID refresh = Some ref ->
  RefreshTokenRef.ID ref = RefreshToken.ID refresh ->
  updateOfflineSession s st refresh ident lastUsed
  = (Returned None,
     storage.mk (storage.refreshTokens st)
       (<[(Claims.UserID (RefreshToken.Claims refresh), RefreshToken.ConnectorID refresh) :=
            OfflineSessions.mk
              (OfflineSessions.UserID session) (OfflineSessions.ConnID session)
              (<[RefreshToken.ClientID refresh :=
                   RefreshTokenRef.mk (RefreshTokenRef.ID ref) (RefreshTokenRef.ClientID ref)
                                      (RefreshTokenRef.CreatedAt ref) lastUsed]>
                 (OfflineSessions.Refresh session))
              (Identity.ConnectorData ident)]>
          (storage.offlineSessions st))
       (storage.failing st)).
Proof.
  intros Hf Hs Hr Hid.
  unfold updateOfflineSession, storage.UpdateOfflineSessions, offlineSessionUpdater.
  rewrite Hf, Hs, Hr. apply String.eqb_eq in Hid. rewrite Hid. done.
Qed.

(** C2: with rotation enabled, a presented secret that differs from the
    freshest stored token, equals the stored obsolete token and falls in
    the reuse window makes the updater return the stored record as it is,
    set the returned handle's secret to the stored token and set the last
    used instant to the stored one; the rotator then leaves the stored
    record alone, writes that prior instant to the offline session and
    returns the already rotated secret. *)
Theorem reuse_retry_adopts_rotated_secret s token ident c old :
  RotationEnabled (refreshTokenPolicy s) = true ->
  RefreshToken.Token old <> internal.RefreshToken.Token token ->
  AllowedToReuse (refreshTokenPolicy s) (RefreshToken.LastUsed old) = true ->
  RefreshToken.ObsoleteToken old = internal.RefreshToken.Token token ->
  refreshTokenUpdater s token ident c old
  = ((old, None),
     {| newToken := internal.RefreshToken.mk
                      (internal.RefreshToken.RefreshId (newToken c))
                      (RefreshToken.Token old);
        lastUsed := RefreshToken.LastUsed old |})
  /\ forall st refresh session ref,
      storage.failing st storage.OpUpdateRefreshToken = false ->
      storage.failing st storage.OpUpdateOfflineSessions = false ->
      storage.refreshTokens st !! RefreshToken.ID refresh = Some old ->
      storage.offlineSessions st !! (Claims.UserID (RefreshToken.Claims refresh),
                                     RefreshToken.ConnectorID refresh) = Some session ->
      OfflineSessions.Refresh session !! RefreshToken.ClientID refresh = Some ref ->
      RefreshTokenRef.ID ref = RefreshToken.ID refresh ->
      updateRefreshToken s st token refresh ident
      = (Returned (Ok (internal.RefreshToken.mk (RefreshToken.ID refresh)
                                                (RefreshToken.Token old))),
         storage.mk (storage.refreshTokens st)
           (<[(Claims.UserID (RefreshToken.Claims refresh),
               RefreshToken.ConnectorID refresh) :=
                OfflineSessions.mk
                  (OfflineSessions.UserID session) (OfflineSessions.ConnID session)
                  (<[RefreshToken.ClientID refresh :=
                       RefreshTokenRef.mk (RefreshTokenRef.ID ref)
                                          (RefreshTokenRef.ClientID ref)
                                          (RefreshTokenRef.CreatedAt ref)
                                          (RefreshToken.LastUsed old)]>
                     (OfflineSessions.Refresh session))
                  (Identity.ConnectorData ident)]>
              (storage.offlineSessions st))
           (storage.failing st)).
Proof.
  intros Hrot Hne Hreuse Hobs.
  assert (forall c', refreshTokenUpdater s token ident c' old
          = ((old, None),
             {| newToken := internal.RefreshToken.mk
                              (internal.RefreshToken.RefreshId (newToken c'))
                              (RefreshToken.Token old);
                lastUsed := RefreshToken.LastUsed old |})) as Hupd.
  { intros c'. unfold refreshTokenUpdater. rewrite Hrot.
    apply String.eqb_neq in Hne. rewrite Hne. simpl.
    rewrite Hreuse. apply String.eqb_eq in Hobs. rewrite Hobs. done. }
  split; [apply Hupd|].
  intros st refresh session ref Hf1 Hf2 Hold Hs Hr Hid.
  unfold updateRefreshToken, storage.UpdateRefreshToken.
  rewrite Hf1, Hold, Hupd, Hrot. simpl.
  rewrite (insert_id _ _ _ Hold), storage_eta.
  rewrite (updateOfflineSession_ok s st refresh ident _ session ref) by done.
  done.
Qed.

Lemma reuse_retry_adopts_rotated_secret_witness :
  fst (updateRefreshToken (Scenario.server false Scenario.ldap (policyAt true 10 0 0 100))
                          (Scenario.stateOf Scenario.R1rotated 95 Scenario.healthy)
                          (internal.RefreshToken.mk "R1" "T1") Scenario.R1rotated
                          (seedIdentity Scenario.R1rotated []))
  = Returned (Ok (internal.RefreshToken.mk "R1" "T2")).
Proof.
  rewrite (proj2 (reuse_retry_adopts_rotated_secret
                    (Scenario.server false Scenario.ldap (policyAt true 10 0 0 100))
                    (internal.RefreshToken.mk "R1" "T1") (seedIdentity Scenario.R1rotated [])
                    (mkCaptured (internal.RefreshToken.mk "R1" "T3") 100) Scenario.R1rotated
                    eq_refl ltac:(discriminate) eq_refl eq_refl)
                 (Scenario.stateOf Scenario.R1rotated 95 Scenario.healthy)
                 Scenario.R1rotated (Scenario.session 95 [])
                 (RefreshTokenRef.mk "R1" "C1" 0 95)
                 eq_refl eq_refl eq_refl eq_refl eq_refl eq_refl).
  reflexivity.
Defined.

Lemma updater_binding s token ident c old :
  binding (fst (fst (refreshTokenUpdater s token ident c old))) = binding old.
Proof.
  unfold refreshTokenUpdater.
  destruct (RotationEnabled _); [|done].
  destruct (negb _); [|done].
  destruct (_ && _); done.
Qed.

(** C6: whatever the updater returns, error or not, the record it
    returns has the id, client id, connector id, creation instant and
    user id of the freshest record it was given; so has the record the
    storage holds under the id once the rotator is done. *)
Theorem refresh_keeps_binding s token ident :
  (forall c old new err c',
      refreshTokenUpdater s token ident c old = ((new, err), c') ->
      binding new = binding old)
  /\ (forall st refresh old,
         storage.refreshTokens st !! RefreshToken.ID refresh = Some old ->
         exists new,
           storage.refreshTokens (snd (updateRefreshToken s st token refresh ident))
             !! RefreshToken.ID refresh = Some new
           /\ binding new = binding old).
Proof.
  split.
  - intros c old new err c' H.
    pose proof (updater_binding s token ident c old) as Hb. by rewrite H in Hb.
  - intros st refresh old Hold.
    unfold updateRefreshToken, storage.UpdateRefreshToken.
    destruct (storage.failing st _); [by exists old|].
    rewrite Hold.
    pose proof (updater_binding s token ident
                  {| newToken := if RotationEnabled (refreshTokenPolicy s)
                                 then internal.RefreshToken.mk (RefreshToken.ID refresh) (NewID s)
                                 else token;
                     lastUsed := now s |} old) as Hb.
    destruct (refreshTokenUpdater _ _ _ _ _) as [[new [e|]] c']; simpl in *.
    + by exists old.
    + exists new. split; [|done].
      match goal with
      | |- context [updateOfflineSession ?a ?b ?c ?d ?e] =>
        pose proof (updateOfflineSession_refreshTokens a b c d e) as Hrt;
        destruct (updateOfflineSession a b c d e) as [[[rerr|]|] st2]
      end; simpl in *; rewrite Hrt; apply lookup_insert_eq.
Qed.

Lemma refresh_keeps_binding_witness :
  exists new,
    storage.refreshTokens
      (snd (updateRefreshToken (Scenario.server false Scenario.ldap (policyAt true 0 0 0 100))
                               (Scenario.stateOf Scenario.R1 0 Scenario.healthy)
                               (internal.RefreshToken.mk "R1" "T1") Scenario.R1
                               (seedIdentity Scenario.R1 [])))
      !! "R1"%string = Some new
    /\ binding new = binding Scenario.R1.
Proof.
  apply (proj2 (refresh_keeps_binding
                  (Scenario.server false Scenario.ldap (policyAt true 0 0 0 100))
                  (internal.RefreshToken.mk "R1" "T1") (seedIdentity Scenario.R1 []))
               (Scenario.stateOf Scenario.R1 0 Scenario.healthy) Scenario.R1 Scenario.R1).
  reflexivity.
Defined.

(** C9: with rotation disabled the updater compares nothing: whatever
    token the freshest record holds, it writes the presented secret over
    it and reports no error; the obsolete token stays.  So a handle that
    was validated through its obsolete secret puts that secret back in
    place of the rotated one, and the rotator returns the presented
    handle. *)
Theorem rotation_disabled_overwrites s token ident :
  RotationEnabled (refreshTokenPolicy s) = false ->
  (forall instant old,
      refreshTokenUpdater s token ident {| newToken := token; lastUsed := instant |} old
      = ((RefreshToken.mk
            (RefreshToken.ID old) (internal.RefreshToken.Token token)
            (RefreshToken.ObsoleteToken old)
            (RefreshToken.CreatedAt old) instant (RefreshToken.ClientID old)
            (RefreshToken.ConnectorID old) []
            (Claims.mk (Claims.UserID (RefreshToken.Claims old))
                       (Identity.Username ident) (Identity.PreferredUsername ident)
                       (Identity.Email ident) (Identity.EmailVerified ident)
                       (Identity.Groups ident))
            (RefreshToken.Scopes old) (RefreshToken.Nonce old),
          None),
         {| newToken := token; lastUsed := instant |}))
  /\ (forall st refresh old session ref,
         storage.failing st storage.OpUpdateRefreshToken = false ->
         storage.failing st storage.OpUpdateOfflineSessions = false ->
         storage.refreshTokens st !! RefreshToken.ID refresh = Some old ->
         storage.offlineSessions st !! (Claims.UserID (RefreshToken.Claims refresh),
                                        RefreshToken.ConnectorID refresh) = Some session ->
         OfflineSessions.Refresh session !! RefreshToken.ClientID refresh = Some ref ->
         RefreshTokenRef.ID ref = RefreshToken.ID refresh ->
         fst (updateRefreshToken s st token refresh ident) = Returned (Ok token)
         /\ exists new,
             storage.refreshTokens (snd (updateRefreshToken s st token refresh ident))
               !! RefreshToken.ID refresh = Some new
             /\ RefreshToken.Token new = internal.RefreshToken.Token token
             /\ RefreshToken.ObsoleteToken new = RefreshToken.ObsoleteToken old).
Proof.
  intros Hrot.
  assert (forall instant old,
      refreshTokenUpdater s token ident {| newToken := token; lastUsed := instant |} old
      = ((RefreshToken.mk
            (RefreshToken.ID old) (internal.RefreshToken.Token token)
            (RefreshToken.ObsoleteToken old)
            (RefreshToken.CreatedAt old) instant (RefreshToken.ClientID old)
            (RefreshToken.ConnectorID old) []
            (Claims.mk (Claims.UserID (RefreshToken.Claims old))
                       (Identity.Username ident) (Identity.PreferredUsername ident)
                       (Identity.Email ident) (Identity.EmailVerified ident)
                       (Identity.Groups ident))
            (RefreshToken.Scopes old) (RefreshToken.Nonce old),
          None),
         {| newToken := token; lastUsed := instant |})) as Hupd.
  { intros instant old. unfold refreshTokenUpdater. by rewrite Hrot. }
  split; [apply Hupd|].
  intros st refresh old session ref Hf1 Hf2 Hold Hs Hr Hid.
  unfold updateRefreshToken, storage.UpdateRefreshToken.
  rewrite Hf1, Hold, Hrot, Hupd. simpl.
  erewrite updateOfflineSession_ok; [| done | apply Hs | apply Hr | done].
  simpl. split; [done|].
  eexists. split; [apply lookup_insert_eq|]. done.
Qed.

Lemma rotation_disabled_overwrites_witness :
  fst (updateRefreshToken (Scenario.server false Scenario.ldap (policyAt false 10 0 0 100))
                          (Scenario.stateOf Scenario.R1rotated 95 Scenario.healthy)
                          (internal.RefreshToken.mk "R1" "T1") Scenario.R1rotated
                          (seedIdentity Scenario.R1rotated []))
  = Returned (Ok (internal.RefreshToken.mk "R1" "T1"))
  /\ exists new,
      storage.refreshTokens
        (snd (updateRefreshToken
                (Scenario.server false Scenario.ldap (policyAt false 10 0 0 100))
                (Scenario.stateOf Scenario.R1rotated 95 Scenario.healthy)
                (internal.RefreshToken.mk "R1" "T1") Scenario.R1rotated
                (seedIdentity Scenario.R1rotated [])))
        !! "R1"%string = Some new
      /\ RefreshToken.Token new = "T1"%string
      /\ RefreshToken.ObsoleteToken new = "T1"%string.
Proof.
  apply (proj2 (rotation_disabled_overwrites
                  (Scenario.server false Scenario.ldap (policyAt false 10 0 0 100))
                  (internal.RefreshToken.mk "R1" "T1") (seedIdentity Scenario.R1rotated []) eq_refl)
               (Scenario.stateOf Scenario.R1rotated 95 Scenario.healthy)
               Scenario.R1rotated Scenario.R1rotated (Scenario.session 95 [])
               (RefreshTokenRef.mk "R1" "C1" 0 95)
               eq_refl eq_refl eq_refl eq_refl eq_refl eq_refl).
Defined.

(** ** Orchestration *)

(** C7: a request that fails in a stage before the rotator (extraction,
    validation, scope reconciliation, identity refresh, access-token
    minting, ID-token minting) writes exactly one error response, the one
    of that failure, runs no stage after the failing one, and leaves the
    storage, refresh tokens and offline sessions, as it found it. *)
Theorem failure_before_rotator s st r client g rerr :
  FailsAt s st r client g rerr ->
  serve s st r client
  = mkRun st [ErrorResponse (msg rerr) (desc rerr) (code rerr)] (through g) false.
Proof.
  intros H. destruct H; run_handler; reflexivity.
Qed.

Lemma failure_before_rotator_witness :
  serve (mkServer (policyAt true 0 0 0 100) true 100
                  (Scenario.connectors Scenario.ldap) Scenario.noMint Scenario.mintID
                  "T2" Scenario.decode Scenario.encode)
        (Scenario.stateOf Scenario.R1 0 Scenario.healthy)
        (Scenario.request "R1|T1" "") Scenario.client
  = mkRun (Scenario.stateOf Scenario.R1 0 Scenario.healthy)
          [ErrorResponse "invalid_request" (Text "") 500]
          [Extract; Validate; ReconcileScopes; RefreshIdentity; MintAccessToken]
          false.
Proof.
  apply (failure_before_rotator _ _ _ _ MintAccessToken newInternalServerError).
  apply (fails_access _ _ _ _ (internal.RefreshToken.mk "R1" "T1") Scenario.R1 Scenario.scopes
                      (withGroups (seedIdentity Scenario.R1 []) ["a"; "b"]%string));
    reflexivity.
Defined.

(** The groups loop computes the prefixed list. *)
Lemma prefixGroups_map (connectorID : string) (groups : list string) :
  prefixGroups connectorID groups = map (fun group => connectorID +:+ ":" +:+ group) groups.
Proof.
  unfold prefixGroups.
  enough (forall suf pre,
             foldl (fun gs idx =>
                      match gs !! idx with
                      | Some group => <[idx := connectorID +:+ ":" +:+ group]> gs
                      | None => gs
                      end)
                   (pre ++ suf) (seq (List.length pre) (List.length suf))
             = pre ++ map (fun group => connectorID +:+ ":" +:+ group) suf) as H.
  { apply (H groups []). }
  induction suf as [|x suf IH]; intros pre; simpl.
  - done.
  - rewrite list_lookup_middle by done.
    rewrite insert_app_r_alt by done.
    replace (List.length pre - List.length pre)%nat with 0%nat by lia. simpl.
    rewrite (cons_middle _ pre suf).
    rewrite (cons_middle _ pre (map _ suf)).
    rewrite !app_assoc.
    replace (S (List.length pre)) with (List.length (pre ++ [x]))
      by (rewrite length_app; simpl; lia).
    replace (List.length (pre ++ [x]))
      with (List.length (pre ++ [connectorID +:+ ":" +:+ x]))
      by (rewrite !length_app; simpl; lia).
    apply IH.
Qed.

(** On the paths that advance the record, the updater stores the groups
    of the identity it is given. *)
Lemma updater_stores_given_groups s token ident c old new c' :
  refreshTokenUpdater s token ident c old = ((new, None), c') ->
  new <> old ->
  Claims.Groups (RefreshToken.Claims new) = Identity.Groups ident.
Proof.
  unfold refreshTokenUpdater.
  destruct (RotationEnabled _).
  - destruct (negb _).
    + destruct (_ && _); intros H Hne; inversion H; subst; done.
    + intros H _. by inversion H.
  - intros H _. by inversion H.
Qed.

Lemma injectGroupsPrefix_groups s refresh ident :
  oidcGroupsPrefix s = true ->
  Identity.Groups (injectGroupsPrefix s refresh ident)
  = map (fun group => RefreshToken.ConnectorID refresh +:+ ":" +:+ group)
        (Identity.Groups ident).
Proof.
  intros H. unfold injectGroupsPrefix. rewrite H. simpl. apply prefixGroups_map.
Qed.

(** Once both tokens are minted, the storage a request leaves behind is
    the one the rotator leaves when given the identity after the groups
    block. *)
Lemma serve_rotates_injected_identity s st r client token refresh scopes ident
      accessToken idToken :
  extractRefreshTokenFromRequest s r = Ok token ->
  getRefreshTokenFromStorage s st (Client.ID client) token = Ok refresh ->
  getRefreshScopes r refresh = Ok scopes ->
  refreshWithConnector s st token refresh scopes = Ok ident ->
  newAccessToken s (Client.ID client) (claimsOf (injectGroupsPrefix s refresh ident))
                 scopes (RefreshToken.Nonce refresh) (RefreshToken.ConnectorID refresh)
  = Some accessToken ->
  newIDToken s (Client.ID client) (claimsOf (injectGroupsPrefix s refresh ident))
             scopes (RefreshToken.Nonce refresh) accessToken ""
             (RefreshToken.ConnectorID refresh)
  = Some idToken ->
  store (serve s st r client)
  = snd (updateRefreshToken s st token refresh (injectGroupsPrefix s refresh ident)).
Proof.
  intros H1 H2 H3 H4 H5 H6. destruct idToken as [idToken expiry].
  unfold serve, handleRefreshToken. step_handler.
  rewrite H1. step_handler. rewrite H2. step_handler. rewrite H3. step_handler.
  rewrite H4. step_handler. rewrite H5. step_handler. rewrite H6. step_handler.
  destruct (updateRefreshToken _ _ _ _ _) as [[[newTok|rerr]|] st']; step_handler;
    cbv [panic]; try done.
  destruct (Marshal s newTok); done.
Qed.

(** The rotator, given the current secret, persists the groups of the
    identity it receives. *)
Lemma updateRefreshToken_persists_groups s st token refresh ident old :
  storage.failing st storage.OpUpdateRefreshToken = false ->
  storage.refreshTokens st !! RefreshToken.ID refresh = Some old ->
  RefreshToken.Token old = internal.RefreshToken.Token token ->
  exists new,
    storage.refreshTokens (snd (updateRefreshToken s st token refresh ident))
      !! RefreshToken.ID refresh = Some new
    /\ Claims.Groups (RefreshToken.Claims new) = Identity.Groups ident.
Proof.
  intros Hf Hold Htok.
  unfold updateRefreshToken, storage.UpdateRefreshToken. rewrite Hf, Hold.
  unfold refreshTokenUpdater. apply String.eqb_eq in Htok. rewrite Htok. simpl.
  destruct (RotationEnabled _); simpl;
    match goal with
    | |- context [updateOfflineSession ?a ?b ?c ?d ?e] =>
      pose proof (updateOfflineSession_refreshTokens a b c d e) as Hrt;
      destruct (updateOfflineSession a b c d e) as [[[rerr|]|] st2]
    end; simpl in *; rewrite Hrt; eexists; (split; [apply lookup_insert_eq|done]).
Qed.

(** C1, the failing case: with the groups prefix enabled and the
    connector [ldap] answering the groups [a, b], the minted tokens carry
    [ldap:a, ldap:b], and the rotator persists [ldap:a, ldap:b] too, not
    [a, b]. *)
Theorem prefixed_groups_reach_storage :
  let s := Scenario.server true Scenario.ldap (policyAt true 0 0 0 100) in
  let st := Scenario.stateOf Scenario.R1 0 Scenario.healthy in
  let out := serve s st (Scenario.request "R1|T1" "") Scenario.client in
  refreshWithConnector s st (internal.RefreshToken.mk "R1" "T1") Scenario.R1 Scenario.scopes
  = Ok (withGroups (seedIdentity Scenario.R1 []) ["a"; "b"]%string)
  /\ written out
     = [AccessTokenResponse "id[ldap:a,ldap:b]" "access[ldap:a,ldap:b]" "R1|T2" 3600]
  /\ (fun rt => Claims.Groups (RefreshToken.Claims rt))
       <$> storage.refreshTokens (store out) !! "R1"%string
     = Some ["ldap:a"; "ldap:b"]%string.
Proof. vm_compute. repeat split. Qed.

(** With a connector that cannot refresh, the next request seeds its
    identity from the persisted groups and prefixes them again. *)
Lemma prefix_accumulates :
  let s := Scenario.server true PlainConnector (policyAt true 0 0 0 100) in
  let st := Scenario.stateOf Scenario.R1 0 Scenario.healthy in
  let first := serve s st (Scenario.request "R1|T1" "") Scenario.client in
  let second := serve s (store first) (Scenario.request "R1|T2" "") Scenario.client in
  (fun rt => Claims.Groups (RefreshToken.Claims rt))
    <$> storage.refreshTokens (store first) !! "R1"%string
  = Some ["ldap:a"]%string
  /\ written second
     = [AccessTokenResponse "id[ldap:ldap:a]" "access[ldap:ldap:a]" "R1|T2" 3600]
  /\ (fun rt => Claims.Groups (RefreshToken.Claims rt))
       <$> storage.refreshTokens (store second) !! "R1"%string
     = Some ["ldap:ldap:a"]%string.
Proof. vm_compute. repeat split. Qed.

(** ** The scenarios of the specification, run end to end *)

(** S1, happy rotation: the secret [T1] is redeemed at instant 100; the
    record then holds the fresh secret, the old one as obsolete, and the
    instant. *)
Example happy_rotation :
  let s := Scenario.server false Scenario.ldap (policyAt true 0 0 0 100) in
  let out := serve s (Scenario.stateOf Scenario.R1 0 Scenario.healthy)
                   (Scenario.request "R1|T1" "") Scenario.client in
  written out = [AccessTokenResponse "id[a,b]" "access[a,b]" "R1|T2" 3600]
  /\ secretsOf <$> storage.refreshTokens (store out) !! "R1"%string
     = Some ("T2", "T1", 100)%string
  /\ Scenario.decode "R1|T2" = Some (internal.RefreshToken.mk "R1" "T2").
Proof. vm_compute. repeat split. Qed.

(** S2, replay outside the window: after S1, at instant 111 with a
    window of 10, the old secret is refused and nothing is written. *)
Example replay_outside_window :
  let first := serve (Scenario.server false Scenario.ldap (policyAt true 10 0 0 100))
                     (Scenario.stateOf Scenario.R1 0 Scenario.healthy)
                     (Scenario.request "R1|T1" "") Scenario.client in
  let s := Scenario.serverAt 111 "T3" false Scenario.ldap (policyAt true 10 0 0 111) in
  let out := serve s (store first) (Scenario.request "R1|T1" "") Scenario.client in
  written out
  = [ErrorResponse "invalid_request"
       (Text "clientID C1 refresh token (ID R1) is invalid or has already been claimed by another client.")
       400]
  /\ store out = store first.
Proof. vm_compute. repeat split. Qed.

(** S3, retry inside the window: after S1, at instant 105, the old
    secret is answered with the secret of the winning rotation, and the
    record keeps its last use. *)
Example retry_inside_window :
  let first := serve (Scenario.server false Scenario.ldap (policyAt true 10 0 0 100))
                     (Scenario.stateOf Scenario.R1 0 Scenario.healthy)
                     (Scenario.request "R1|T1" "") Scenario.client in
  let s := Scenario.serverAt 105 "T3" false Scenario.ldap (policyAt true 10 0 0 105) in
  let out := serve s (store first) (Scenario.request "R1|T1" "") Scenario.client in
  written out = [AccessTokenResponse "id[a,b]" "access[a,b]" "R1|T2" 3600]
  /\ secretsOf <$> storage.refreshTokens (store out) !! "R1"%string
     = Some ("T2", "T1", 100)%string
  /\ store out = store first.
Proof. vm_compute. repeat split. Qed.

(** S4, wrong client: a valid handle presented by another client is an
    invalid grant. *)
Example wrong_client :
  let s := Scenario.server false Scenario.ldap (policyAt true 0 0 0 100) in
  let out := serve s (Scenario.stateOf Scenario.R1 0 Scenario.healthy)
                   (Scenario.request "R1|T1" "") (Client.mk "C2") in
  written out
  = [ErrorResponse "invalid_grant"
       (Text "clientID C2 refresh token (ID R1) is invalid or has already been claimed by another client.")
       400]
  /\ stages out = [Extract; Validate].
Proof. vm_compute. repeat split. Qed.

(** S5, scope narrowing: a scope that was never granted is named in the
    refusal. *)
Example scope_narrowing :
  let s := Scenario.server false Scenario.ldap (policyAt true 0 0 0 100) in
  let out := serve s (Scenario.stateOf Scenario.R1 0 Scenario.healthy)
                   (Scenario.request "R1|T1" "openid profile") Scenario.client in
  written out
  = [ErrorResponse "invalid_request"
       (QuotedList "Requested scopes contain unauthorized scope(s): "
                   ["profile"%string] ".")
       400]
  /\ stages out = [Extract; Validate; ReconcileScopes].
Proof. vm_compute. repeat split. Qed.

(** A session that lost the client's reference: the nil pointer read in
    the session updater panics after the refresh token was rotated, and
    no response is written. *)
Example missing_reference_panics :
  let s := Scenario.server false Scenario.ldap (policyAt true 0 0 0 100) in
  let st := storage.mk {[ "R1"%string := Scenario.R1 ]}
                       {[ ("u"%string, "ldap"%string) :=
                            OfflineSessions.mk "u" "ldap" ∅ [] ]}
                       Scenario.healthy in
  let out := serve s st (Scenario.request "R1|T1" "") Scenario.client in
  written out = [] /\ panicked out = true
  /\ secretsOf <$> storage.refreshTokens (store out) !! "R1"%string
     = Some ("T2", "T1", 100)%string.
Proof. vm_compute. repeat split. Qed.

(** A backend failure while loading the offline session ends the request
    in the identity stage, with HTTP status 500. *)
Example session_load_failure :
  let s := Scenario.server false Scenario.ldap (policyAt true 0 0 0 100) in
  let st := Scenario.stateOf Scenario.R1 0 Scenario.getSessionDown in
  let out := serve s st (Scenario.request "R1|T1" "") Scenario.client in
  written out = [ErrorResponse "invalid_request" (Text "") 500]
  /\ stages out = [Extract; Validate; ReconcileScopes; RefreshIdentity]
  /\ store out = st.
Proof. vm_compute. repeat split. Qed.

(** * Further properties of the handlers *)

(** ** Membership and scopes *)

(** [contains] decides membership in the slice. *)
Theorem contains_decides_membership (arr : list string) (item : string) :
  (contains arr item = true <-> In item arr)
  /\ (contains arr item = false <-> ~ In item arr).
Proof.
  assert (contains arr item = true <-> In item arr) as H.
  { rewrite contains_elem_of. apply list_elem_of_In. }
  split; [done|].
  destruct (contains arr item); split; intros H'; try done.
  - exfalso. apply H'. by apply H.
  - intros Hin. apply H in Hin. discriminate.
Qed.

(** Scope narrowing: whatever the request asks for, the scopes a
    successful reconciliation returns are all among the stored scopes. *)
Theorem reconciled_scopes_are_stored (r : http.Request) (refresh : RefreshToken.t)
        (granted : list string) :
  getRefreshScopes r refresh = Ok granted ->
  forall scope, In scope granted -> In scope (RefreshToken.Scopes refresh).
Proof.
  unfold getRefreshScopes.
  destruct (String.eqb _ _).
  - intros H. by inversion H.
  - rewrite unauthorized_filter.
    destruct (filter _ _) as [|x l] eqn:Hf; simpl.
    + intros H. inversion H; subst. intros scope Hin.
      apply filter_nil_Forall in Hf. rewrite Forall_forall in Hf.
      apply list_elem_of_In, Hf, list_elem_of_In, Hin.
    + discriminate.
Qed.

Lemma reconciled_scopes_are_stored_witness :
  In "email"%string (RefreshToken.Scopes Scenario.R1).
Proof.
  apply (reconciled_scopes_are_stored
           (Scenario.request "R1|T1" "email openid") Scenario.R1
           ["email"; "openid"]%string eq_refl).
  simpl. by left.
Defined.

(** ** Validation *)

Lemma validator_ok_inv s st clientID token refresh :
  getRefreshTokenFromStorage s st clientID token = Ok refresh ->
  storage.GetRefresh st (internal.RefreshToken.RefreshId token) = inl refresh
  /\ RefreshToken.ClientID refresh = clientID
  /\ (RefreshToken.Token refresh = internal.RefreshToken.Token token
      \/ reusable s refresh token)
  /\ CompletelyExpired (refreshTokenPolicy s) (RefreshToken.CreatedAt refresh) = false
  /\ ExpiredBecauseUnused (refreshTokenPolicy s) (RefreshToken.LastUsed refresh) = false.
Proof.
  unfold getRefreshTokenFromStorage.
  destruct (storage.GetRefresh st _) as [stored|err].
  2: { destruct (negb _); discriminate. }
  destruct (String.eqb (RefreshToken.ClientID stored) clientID) eqn:Hc; simpl;
    [|discriminate].
  destruct (String.eqb (RefreshToken.Token stored) (internal.RefreshToken.Token token))
    eqn:Ht; simpl.
  - destruct (CompletelyExpired _ _) eqn:Hce; [discriminate|].
    destruct (ExpiredBecauseUnused _ _) eqn:Hidle; [discriminate|].
    intros H. inversion H; subst. eqb_cases. repeat split; auto.
  - destruct (AllowedToReuse _ _) eqn:Ha; simpl; [|discriminate].
    destruct (String.eqb (RefreshToken.ObsoleteToken stored)
                         (internal.RefreshToken.Token token)) eqn:Ho;
      simpl; [|discriminate].
    destruct (String.eqb (RefreshToken.ObsoleteToken stored) "") eqn:He;
      simpl; [discriminate|].
    destruct (CompletelyExpired _ _) eqn:Hce; [discriminate|].
    destruct (ExpiredBecauseUnused _ _) eqn:Hidle; [discriminate|].
    intros H. inversion H; subst. eqb_cases.
    repeat split; auto. right. by repeat split.
Qed.

(** What an accepted handle guarantees: the record returned is the one
    the storage holds under the handle's id, it is bound to the
    authenticated client, the presented secret is its current one or a
    reusable obsolete one, and it is neither completely expired nor
    expired because unused. *)
Theorem accepted_handle_is_sound s st clientID token refresh :
  getRefreshTokenFromStorage s st clientID token = Ok refresh ->
  storage.refreshTokens st !! internal.RefreshToken.RefreshId token = Some refresh
  /\ RefreshToken.ClientID refresh = clientID
  /\ (RefreshToken.Token refresh = internal.RefreshToken.Token token
      \/ reusable s refresh token)
  /\ CompletelyExpired (refreshTokenPolicy s) (RefreshToken.CreatedAt refresh) = false
  /\ ExpiredBecauseUnused (refreshTokenPolicy s) (RefreshToken.LastUsed refresh) = false.
Proof.
  intros H. apply validator_ok_inv in H as (Hget & Hrest).
  split; [|done].
  unfold storage.GetRefresh in Hget.
  destruct (storage.failing st _); [discriminate|].
  destruct (storage.refreshTokens st !! _); by inversion Hget.
Qed.

Lemma accepted_handle_is_sound_witness :
  storage.refreshTokens (Scenario.stateOf Scenario.R1 0 Scenario.healthy) !! "R1"%string
  = Some Scenario.R1.
Proof.
  apply (accepted_handle_is_sound
           (Scenario.server false Scenario.ldap (policyAt true 0 0 0 100))
           (Scenario.stateOf Scenario.R1 0 Scenario.healthy)
           "C1" (internal.RefreshToken.mk "R1" "T1") Scenario.R1 eq_refl).
Defined.

(** The order of the checks: a record of another client is an invalid
    grant whatever its secret and age; for the right client a secret
    that is neither current nor reusable is refused as invalid whatever
    the age; only a passing secret is held against the expiry, and both
    expiries give the same error. *)
Theorem validator_checks_in_order s st clientID token stored :
  storage.GetRefresh st (internal.RefreshToken.RefreshId token) = inl stored ->
  (RefreshToken.ClientID stored <> clientID ->
   getRefreshTokenFromStorage s st clientID token
   = Err {| msg := errInvalidGrant; code := 400;
            desc := desc (invalidErr clientID token) |})
  /\ (RefreshToken.ClientID stored = clientID ->
      RefreshToken.Token stored <> internal.RefreshToken.Token token ->
      ~ reusable s stored token ->
      getRefreshTokenFromStorage s st clientID token = Err (invalidErr clientID token))
  /\ (RefreshToken.ClientID stored = clientID ->
      RefreshToken.Token stored = internal.RefreshToken.Token token
      \/ reusable s stored token ->
      CompletelyExpired (refreshTokenPolicy s) (RefreshToken.CreatedAt stored) = true
      \/ ExpiredBecauseUnused (refreshTokenPolicy s) (RefreshToken.LastUsed stored) = true ->
      getRefreshTokenFromStorage s st clientID token = Err expiredErr).
Proof.
  intros Hget. split; [|split].
  - intros Hne. by apply validator_wrong_client with (stored := stored).
  - intros Hc Hne Hnot. by apply validator_double_use with (stored := stored).
  - intros Hc Hpass Hexp.
    rewrite validator_expiry with (stored := stored) by done.
    destruct (CompletelyExpired _ _); [done|].
    destruct Hexp as [Hexp|Hexp]; [discriminate|]. by rewrite Hexp.
Qed.

Lemma validator_checks_in_order_witness :
  let s := Scenario.server false Scenario.ldap (policyAt true 0 50 0 100) in
  let st := Scenario.stateOf Scenario.R1 0 Scenario.healthy in
  getRefreshTokenFromStorage s st "C2" (internal.RefreshToken.mk "R1" "T9")
  = Err {| msg := errInvalidGrant; code := 400;
           desc := desc (invalidErr "C2" (internal.RefreshToken.mk "R1" "T9")) |}
  /\ getRefreshTokenFromStorage s st "C1" (internal.RefreshToken.mk "R1" "T9")
     = Err (invalidErr "C1" (internal.RefreshToken.mk "R1" "T9"))
  /\ getRefreshTokenFromStorage s st "C1" (internal.RefreshToken.mk "R1" "T1")
     = Err expiredErr.
Proof.
  intros s st. split; [|split].
  - apply (proj1 (validator_checks_in_order s st "C2"
                    (internal.RefreshToken.mk "R1" "T9") Scenario.R1 eq_refl)).
    discriminate.
  - apply (proj1 (proj2 (validator_checks_in_order s st "C1"
                    (internal.RefreshToken.mk "R1" "T9") Scenario.R1 eq_refl)));
      [reflexivity | discriminate |].
    intros (Ha & _). discriminate Ha.
  - apply (proj2 (proj2 (validator_checks_in_order s st "C1"
                    (internal.RefreshToken.mk "R1" "T1") Scenario.R1 eq_refl)));
      [reflexivity | by left | by left].
Defined.

(** Non-disclosure: an id the storage does not know and a known id whose
    secret was already claimed are answered with one and the same error,
    so the answer does not tell whether the id exists. *)
Theorem unknown_and_claimed_look_alike s st1 st2 clientID token stored :
  storage.GetRefresh st1 (internal.RefreshToken.RefreshId token) = inr storage.ErrNotFound ->
  storage.GetRefresh st2 (internal.RefreshToken.RefreshId token) = inl stored ->
  RefreshToken.ClientID stored = clientID ->
  RefreshToken.Token stored <> internal.RefreshToken.Token token ->
  ~ reusable s stored token ->
  getRefreshTokenFromStorage s st1 clientID token
  = getRefreshTokenFromStorage s st2 clientID token.
Proof.
  intros H1 H2 Hc Hne Hnot.
  rewrite (validator_not_found _ _ _ _ H1).
  by rewrite (validator_double_use _ _ _ _ _ H2 Hc Hne Hnot).
Qed.

Lemma unknown_and_claimed_look_alike_witness :
  getRefreshTokenFromStorage
    (Scenario.server false Scenario.ldap (policyAt true 0 0 0 100))
    (storage.mk ∅ ∅ Scenario.healthy) "C1" (internal.RefreshToken.mk "R1" "T9")
  = getRefreshTokenFromStorage
      (Scenario.server false Scenario.ldap (policyAt true 0 0 0 100))
      (Scenario.stateOf Scenario.R1 0 Scenario.healthy)
      "C1" (internal.RefreshToken.mk "R1" "T9").
Proof.
  apply (unknown_and_claimed_look_alike
           (Scenario.server false Scenario.ldap (policyAt true 0 0 0 100))
           (storage.mk ∅ ∅ Scenario.healthy)
           (Scenario.stateOf Scenario.R1 0 Scenario.healthy)
           "C1" (internal.RefreshToken.mk "R1" "T9") Scenario.R1);
    [reflexivity | reflexivity | reflexivity | discriminate |].
  intros (Ha & _). discriminate Ha.
Defined.

(** A refresh token that does not decode is taken as a bare id with an
    empty secret, and such a handle is accepted only for a record whose
    current token is empty: the reuse path never admits it, because the
    obsolete token it would have to equal must not be empty. *)
Theorem undecodable_token_needs_empty_secret s st r clientID refresh :
  http.PostFormValue r "refresh_token" <> EmptyString ->
  Unmarshal s (http.PostFormValue r "refresh_token") = None ->
  extractRefreshTokenFromRequest s r
  = Ok (internal.RefreshToken.mk (http.PostFormValue r "refresh_token") "")
  /\ (getRefreshTokenFromStorage s st clientID
        (internal.RefreshToken.mk (http.PostFormValue r "refresh_token") "")
      = Ok refresh ->
      RefreshToken.Token refresh = EmptyString).
Proof.
  intros Hne Hdec. split.
  - unfold extractRefreshTokenFromRequest.
    apply String.eqb_neq in Hne. by rewrite Hne, Hdec.
  - intros H. apply validator_ok_inv in H as (_ & _ & [Ht | (_ & Ho & He)] & _).
    + done.
    + simpl in Ho. congruence.
Qed.

Lemma undecodable_token_needs_empty_secret_witness :
  let s := Scenario.server false Scenario.ldap (policyAt true 10 0 0 100) in
  extractRefreshTokenFromRequest s (Scenario.request "R1" "")
  = Ok (internal.RefreshToken.mk "R1" "")
  /\ RefreshToken.Token Scenario.R1bare = EmptyString.
Proof.
  intros s.
  destruct (undecodable_token_needs_empty_secret s
              (Scenario.stateOf Scenario.R1bare 0 Scenario.healthy)
              (Scenario.request "R1" "") "C1" Scenario.R1bare
              ltac:(discriminate) eq_refl) as [Hextract Hsecret].
  split; [exact Hextract | exact (Hsecret eq_refl)].
Defined.

(** ** Identity refresh *)

Lemma claimsOf_seedIdentity refresh connectorData :
  claimsOf (seedIdentity refresh connectorData) = RefreshToken.Claims refresh.
Proof. unfold claimsOf, seedIdentity. simpl. by destruct (RefreshToken.Claims refresh). Qed.

(** The reuse short-circuit: when the reuse window is open and the
    presented secret is the stored obsolete token, the refresh answers
    the identity seeded from the stored claims without calling the
    connector, whatever the connector is or would answer. *)
Theorem reuse_skips_upstream s st token refresh scopes conn connectorData :
  AllowedToReuse (refreshTokenPolicy s) (RefreshToken.LastUsed refresh) = true ->
  internal.RefreshToken.Token token = RefreshToken.ObsoleteToken refresh ->
  chooseConnectorData
    (storage.GetOfflineSessions st (Claims.UserID (RefreshToken.Claims refresh))
                                (RefreshToken.ConnectorID refresh))
    refresh = Some connectorData ->
  getConnector s (RefreshToken.ConnectorID refresh) = Some conn ->
  refreshWithConnector s st token refresh scopes
  = Ok (seedIdentity refresh connectorData).
Proof.
  intros Ha Ho Hcd Hconn. unfold refreshWithConnector, refreshIdentity.
  rewrite Hcd, Hconn, Ha. apply String.eqb_eq in Ho. by rewrite Ho.
Qed.

Lemma reuse_skips_upstream_witness :
  refreshWithConnector
    (Scenario.server false Scenario.brokenLdap (policyAt true 10 0 0 100))
    (Scenario.stateOf Scenario.R1rotated 95 Scenario.healthy)
    (internal.RefreshToken.mk "R1" "T1") Scenario.R1rotated Scenario.scopes
  = Ok (seedIdentity Scenario.R1rotated []).
Proof.
  apply (reuse_skips_upstream
           (Scenario.server false Scenario.brokenLdap (policyAt true 10 0 0 100))
           (Scenario.stateOf Scenario.R1rotated 95 Scenario.healthy)
           (internal.RefreshToken.mk "R1" "T1") Scenario.R1rotated Scenario.scopes
           Scenario.brokenLdap []); reflexivity.
Defined.



(** A connector that does not implement the refresh changes nothing: a
    successful identity refresh through it yields exactly the stored
    claims, user id included. *)
Theorem plain_connector_keeps_claims s st token refresh scopes ident :
  getConnector s (RefreshToken.ConnectorID refresh) = Some PlainConnector ->
  refreshWithConnector s st token refresh scopes = Ok ident ->
  claimsOf ident = RefreshToken.Claims refresh.
Proof.
  intros Hconn. unfold refreshWithConnector, refreshIdentity. rewrite Hconn.
  destruct (chooseConnectorData _ _) as [cd|]; [|discriminate].
  destruct (_ && _); intros H; inversion H; apply claimsOf_seedIdentity.
Qed.

Lemma plain_connector_keeps_claims_witness :
  claimsOf (seedIdentity Scenario.R1 []) = Scenario.claims.
Proof.
  apply (plain_connector_keeps_claims
           (Scenario.server false PlainConnector (policyAt true 0 0 0 100))
           (Scenario.stateOf Scenario.R1 0 Scenario.healthy)
           (internal.RefreshToken.mk "R1" "T1") Scenario.R1 Scenario.scopes
           (seedIdentity Scenario.R1 []) eq_refl eq_refl).
Defined.

(** When the upstream is asked and fails, or the connector of the grant
    is unknown, the refresh ends with the internal error and no
    identity; the stored claims are not used as a fallback. *)
Theorem upstream_failure_is_internal_error s st token refresh scopes :
  (getConnector s (RefreshToken.ConnectorID refresh) = None ->
   exists rerr, refreshWithConnector s st token refresh scopes = Err rerr
                /\ code rerr = 500)
  /\ (forall Refresh connectorData,
         getConnector s (RefreshToken.ConnectorID refresh)
         = Some (RefreshConnector Refresh) ->
         chooseConnectorData
           (storage.GetOfflineSessions st (Claims.UserID (RefreshToken.Claims refresh))
                                       (RefreshToken.ConnectorID refresh))
           refresh = Some connectorData ->
         (AllowedToReuse (refreshTokenPolicy s) (RefreshToken.LastUsed refresh) = false
          \/ internal.RefreshToken.Token token <> RefreshToken.ObsoleteToken refresh) ->
         Refresh scopes (seedIdentity refresh connectorData) = None ->
         refreshWithConnector s st token refresh scopes = Err newInternalServerError).
Proof.
  split.
  - intros Hconn. unfold refreshWithConnector. rewrite Hconn.
    destruct (chooseConnectorData _ _); by eexists.
  - intros Refresh cd Hconn Hcd Hno Hfail.
    unfold refreshWithConnector, refreshIdentity. rewrite Hcd, Hconn, Hfail.
    destruct Hno as [Ha | Hne].
    + by rewrite Ha.
    + apply String.eqb_neq in Hne. by rewrite Hne, andb_false_r.
Qed.

Lemma upstream_failure_is_internal_error_witness :
  (exists rerr,
      refreshWithConnector
        (mkServer (policyAt true 0 0 0 100) false 100 (fun _ => None)
                  Scenario.mintAccess Scenario.mintID "T2" Scenario.decode Scenario.encode)
        (Scenario.stateOf Scenario.R1 0 Scenario.healthy)
        (internal.RefreshToken.mk "R1" "T1") Scenario.R1 Scenario.scopes = Err rerr
      /\ code rerr = 500)
  /\ refreshWithConnector
       (Scenario.server false Scenario.brokenLdap (policyAt true 0 0 0 100))
       (Scenario.stateOf Scenario.R1 0 Scenario.healthy)
       (internal.RefreshToken.mk "R1" "T1") Scenario.R1 Scenario.scopes
     = Err newInternalServerError.
Proof.
  split.
  - apply (proj1 (upstream_failure_is_internal_error
                    (mkServer (policyAt true 0 0 0 100) false 100 (fun _ => None)
                              Scenario.mintAccess Scenario.mintID "T2"
                              Scenario.decode Scenario.encode)
                    (Scenario.stateOf Scenario.R1 0 Scenario.healthy)
                    (internal.RefreshToken.mk "R1" "T1") Scenario.R1 Scenario.scopes)).
    reflexivity.
  - apply (proj2 (upstream_failure_is_internal_error
                    (Scenario.server false Scenario.brokenLdap (policyAt true 0 0 0 100))
                    (Scenario.stateOf Scenario.R1 0 Scenario.healthy)
                    (internal.RefreshToken.mk "R1" "T1") Scenario.R1 Scenario.scopes)
                 (fun _ _ => None) []);
      [reflexivity | reflexivity | by left | reflexivity].
Defined.

(** ** Rotation *)

Lemma updater_reuse s token ident c old :
  RotationEnabled (refreshTokenPolicy s) = true ->
  RefreshToken.Token old <> internal.RefreshToken.Token token ->
  AllowedToReuse (refreshTokenPolicy s) (RefreshToken.LastUsed old) = true ->
  RefreshToken.ObsoleteToken old = internal.RefreshToken.Token token ->
  refreshTokenUpdater s token ident c old
  = ((old, None),
     {| newToken := internal.RefreshToken.mk
                      (internal.RefreshToken.RefreshId (newToken c))
                      (RefreshToken.Token old);
        lastUsed := RefreshToken.LastUsed old |}).
Proof.
  intros Hrot Hne Ha Ho. unfold refreshTokenUpdater. rewrite Hrot.
  apply String.eqb_neq in Hne. rewrite Hne. simpl.
  rewrite Ha. apply String.eqb_eq in Ho. by rewrite Ho.
Qed.

Lemma updater_advance s token ident c old :
  RotationEnabled (refreshTokenPolicy s) = true ->
  RefreshToken.Token old = internal.RefreshToken.Token token ->
  refreshTokenUpdater s token ident c old
  = ((advanced old (internal.RefreshToken.Token (newToken c)) (RefreshToken.Token old)
               (lastUsed c) ident, None), c).
Proof.
  intros Hrot Ht. unfold refreshTokenUpdater. rewrite Hrot.
  apply String.eqb_eq in Ht. by rewrite Ht.
Qed.

Lemma updater_claimed_twice s token ident c old :
  RotationEnabled (refreshTokenPolicy s) = true ->
  RefreshToken.Token old <> internal.RefreshToken.Token token ->
  AllowedToReuse (refreshTokenPolicy s) (RefreshToken.LastUsed old) = false
  \/ RefreshToken.ObsoleteToken old <> internal.RefreshToken.Token token ->
  refreshTokenUpdater s token ident c old
  = ((old, Some (storage.Error "refresh token claimed twice")), c).
Proof.
  intros Hrot Hne Hno. unfold refreshTokenUpdater. rewrite Hrot.
  apply String.eqb_neq in Hne. rewrite Hne. simpl.
  destruct Hno as [Ha | Ho].
  - by rewrite Ha.
  - apply String.eqb_neq in Ho. by rewrite Ho, andb_false_r.
Qed.

Lemma updateOfflineSession_frame s st refresh ident instant :
  storage.failing (snd (updateOfflineSession s st refresh ident instant))
  = storage.failing st
  /\ forall key, key <> sessionKey refresh ->
       storage.offlineSessions (snd (updateOfflineSession s st refresh ident instant))
         !! key = storage.offlineSessions st !! key.
Proof.
  unfold updateOfflineSession, storage.UpdateOfflineSessions. fold (sessionKey refresh).
  destruct (storage.failing st _) eqn:Hf; [done|].
  destruct (storage.offlineSessions st !! _) as [session|]; [|done].
  destruct (offlineSessionUpdater _ _ _ _) as [[new [e|]]|]; try done.
  simpl. split; [done|]. intros key Hkey. by rewrite lookup_insert_ne.
Qed.

Lemma rotation_promotes_secret_eq s st token refresh ident old session ref :
  RotationEnabled (refreshTokenPolicy s) = true ->
  storage.failing st storage.OpUpdateRefreshToken = false ->
  storage.failing st storage.OpUpdateOfflineSessions = false ->
  storage.refreshTokens st !! RefreshToken.ID refresh = Some old ->
  RefreshToken.Token old = internal.RefreshToken.Token token ->
  storage.offlineSessions st !! sessionKey refresh = Some session ->
  OfflineSessions.Refresh session !! RefreshToken.ClientID refresh = Some ref ->
  RefreshTokenRef.ID ref = RefreshToken.ID refresh ->
  updateRefreshToken s st token refresh ident
  = (Returned (Ok (internal.RefreshToken.mk (RefreshToken.ID refresh) (NewID s))),
     storage.mk
       (<[RefreshToken.ID refresh :=
            advanced old (NewID s) (internal.RefreshToken.Token token) (now s) ident]>
          (storage.refreshTokens st))
       (<[sessionKey refresh :=
            stamped session (RefreshToken.ClientID refresh) ref (now s)
                    (Identity.ConnectorData ident)]>
          (storage.offlineSessions st))
       (storage.failing st)).
Proof.
  intros Hrot Hf1 Hf2 Hold Ht Hs Hr Hid.
  unfold updateRefreshToken, storage.UpdateRefreshToken.
  rewrite Hf1, Hold, Hrot, (updater_advance _ _ _ _ _ Hrot Ht). simpl.
  erewrite updateOfflineSession_ok; [| done | apply Hs | apply Hr | done].
  by rewrite Ht.
Qed.

(** Rotation: redeeming the current secret with rotation enabled stores
    the fresh secret, keeps the redeemed one as obsolete, stamps the
    record and the session reference with the instant of the request,
    empties the record's connector data and hands the identity's
    connector data to the session; the handle returned carries the fresh
    secret. *)
Theorem rotation_promotes_secret s st token refresh ident old session ref :
  RotationEnabled (refreshTokenPolicy s) = true ->
  storage.failing st storage.OpUpdateRefreshToken = false ->
  storage.failing st storage.OpUpdateOfflineSessions = false ->
  storage.refreshTokens st !! RefreshToken.ID refresh = Some old ->
  RefreshToken.Token old = internal.RefreshToken.Token token ->
  storage.offlineSessions st !! sessionKey refresh = Some session ->
  OfflineSessions.Refresh session !! RefreshToken.ClientID refresh = Some ref ->
  RefreshTokenRef.ID ref = RefreshToken.ID refresh ->
  updateRefreshToken s st token refresh ident
  = (Returned (Ok (internal.RefreshToken.mk (RefreshToken.ID refresh) (NewID s))),
     storage.mk
       (<[RefreshToken.ID refresh :=
            advanced old (NewID s) (internal.RefreshToken.Token token) (now s) ident]>
          (storage.refreshTokens st))
       (<[sessionKey refresh :=
            stamped session (RefreshToken.ClientID refresh) ref (now s)
                    (Identity.ConnectorData ident)]>
          (storage.offlineSessions st))
       (storage.failing st)).
Proof. apply rotation_promotes_secret_eq. Qed.

Lemma rotation_promotes_secret_witness :
  fst (updateRefreshToken (Scenario.server false Scenario.ldap (policyAt true 0 0 0 100))
                          (Scenario.stateOf Scenario.R1 0 Scenario.healthy)
                          (internal.RefreshToken.mk "R1" "T1") Scenario.R1
                          (seedIdentity Scenario.R1 []))
  = Returned (Ok (internal.RefreshToken.mk "R1" "T2")).
Proof.
  rewrite (rotation_promotes_secret
             (Scenario.server false Scenario.ldap (policyAt true 0 0 0 100))
             (Scenario.stateOf Scenario.R1 0 Scenario.healthy)
             (internal.RefreshToken.mk "R1" "T1") Scenario.R1
             (seedIdentity Scenario.R1 []) Scenario.R1 (Scenario.session 0 [])
             (RefreshTokenRef.mk "R1" "C1" 0 0)
             eq_refl eq_refl eq_refl eq_refl eq_refl eq_refl eq_refl eq_refl).
  reflexivity.
Defined.

(** The two updates are separate: when the session's reference names
    another grant, or the session is gone, the rotator answers the
    internal error after the refresh token was already rotated; the
    fresh secret is in the storage and is not returned. *)
Theorem session_failure_leaves_rotated_record s st token refresh ident old :
  RotationEnabled (refreshTokenPolicy s) = true ->
  storage.failing st storage.OpUpdateRefreshToken = false ->
  storage.failing st storage.OpUpdateOfflineSessions = false ->
  storage.refreshTokens st !! RefreshToken.ID refresh = Some old ->
  RefreshToken.Token old = internal.RefreshToken.Token token ->
  (storage.offlineSessions st !! sessionKey refresh = None
   \/ exists session ref,
        storage.offlineSessions st !! sessionKey refresh = Some session
        /\ OfflineSessions.Refresh session !! RefreshToken.ClientID refresh = Some ref
        /\ RefreshTokenRef.ID ref <> RefreshToken.ID refresh) ->
  updateRefreshToken s st token refresh ident
  = (Returned (Err newInternalServerError),
     storage.mk
       (<[RefreshToken.ID refresh :=
            advanced old (NewID s) (internal.RefreshToken.Token token) (now s) ident]>
          (storage.refreshTokens st))
       (storage.offlineSessions st) (storage.failing st)).
Proof.
  intros Hrot Hf1 Hf2 Hold Ht Hbad.
  unfold updateRefreshToken, storage.UpdateRefreshToken.
  rewrite Hf1, Hold, Hrot, (updater_advance _ _ _ _ _ Hrot Ht). simpl.
  unfold updateOfflineSession, storage.UpdateOfflineSessions. simpl.
  fold (sessionKey refresh). rewrite Hf2, Ht.
  destruct Hbad as [Hnone | (session & ref & Hs & Hr & Hid)].
  - by rewrite Hnone.
  - rewrite Hs. unfold offlineSessionUpdater. rewrite Hr.
    apply String.eqb_neq in Hid. by rewrite Hid.
Qed.

Lemma session_failure_leaves_rotated_record_witness :
  let out := updateRefreshToken
               (Scenario.server false Scenario.ldap (policyAt true 0 0 0 100))
               Scenario.stateSuperseded (internal.RefreshToken.mk "R1" "T1")
               Scenario.R1 (seedIdentity Scenario.R1 []) in
  fst out = Returned (Err newInternalServerError)
  /\ secretsOf <$> storage.refreshTokens (snd out) !! "R1"%string
     = Some ("T2", "T1", 100)%string.
Proof.
  intros out. unfold out.
  rewrite (session_failure_leaves_rotated_record
             (Scenario.server false Scenario.ldap (policyAt true 0 0 0 100))
             Scenario.stateSuperseded (internal.RefreshToken.mk "R1" "T1")
             Scenario.R1 (seedIdentity Scenario.R1 []) Scenario.R1
             eq_refl eq_refl eq_refl eq_refl eq_refl).
  - split; reflexivity.
  - right. exists (OfflineSessions.mk "u" "ldap"
                     {[ "C1"%string := RefreshTokenRef.mk "R0" "C1" 0 0 ]} []),
                  (RefreshTokenRef.mk "R0" "C1" 0 0).
    split; [reflexivity | split; [reflexivity | discriminate]].
Defined.

(** A session without a reference for the grant's client makes the
    session updater read through a nil pointer: the rotator panics, with
    the refresh token already rotated and the session untouched. *)
Theorem missing_reference_panics_after_rotation s st token refresh ident old session :
  RotationEnabled (refreshTokenPolicy s) = true ->
  storage.failing st storage.OpUpdateRefreshToken = false ->
  storage.failing st storage.OpUpdateOfflineSessions = false ->
  storage.refreshTokens st !! RefreshToken.ID refresh = Some old ->
  RefreshToken.Token old = internal.RefreshToken.Token token ->
  storage.offlineSessions st !! sessionKey refresh = Some session ->
  OfflineSessions.Refresh session !! RefreshToken.ClientID refresh = None ->
  updateRefreshToken s st token refresh ident
  = (Panicked,
     storage.mk
       (<[RefreshToken.ID refresh :=
            advanced old (NewID s) (internal.RefreshToken.Token token) (now s) ident]>
          (storage.refreshTokens st))
       (storage.offlineSessions st) (storage.failing st)).
Proof.
  intros Hrot Hf1 Hf2 Hold Ht Hs Hr.
  unfold updateRefreshToken, storage.UpdateRefreshToken.
  rewrite Hf1, Hold, Hrot, (updater_advance _ _ _ _ _ Hrot Ht). simpl.
  unfold updateOfflineSession, storage.UpdateOfflineSessions. simpl.
  fold (sessionKey refresh). rewrite Hf2, Hs, Ht.
  unfold offlineSessionUpdater. by rewrite Hr.
Qed.

Lemma missing_reference_panics_after_rotation_witness :
  fst (updateRefreshToken
         (Scenario.server false Scenario.ldap (policyAt true 0 0 0 100))
         Scenario.stateNoReference (internal.RefreshToken.mk "R1" "T1")
         Scenario.R1 (seedIdentity Scenario.R1 []))
  = Panicked.
Proof.
  rewrite (missing_reference_panics_after_rotation
             (Scenario.server false Scenario.ldap (policyAt true 0 0 0 100))
             Scenario.stateNoReference (internal.RefreshToken.mk "R1" "T1")
             Scenario.R1 (seedIdentity Scenario.R1 []) Scenario.R1
             (OfflineSessions.mk "u" "ldap" ∅ [])
             eq_refl eq_refl eq_refl eq_refl eq_refl eq_refl eq_refl).
  reflexivity.
Defined.

(** Double use at rotation time: with rotation enabled, a secret that is
    neither the freshest stored token nor a reusable obsolete one makes
    the rotator answer the internal error; nothing is written, and the
    session update is not attempted. *)
Theorem claimed_twice_writes_nothing s st token refresh ident old :
  RotationEnabled (refreshTokenPolicy s) = true ->
  storage.refreshTokens st !! RefreshToken.ID refresh = Some old ->
  RefreshToken.Token old <> internal.RefreshToken.Token token ->
  AllowedToReuse (refreshTokenPolicy s) (RefreshToken.LastUsed old) = false
  \/ RefreshToken.ObsoleteToken old <> internal.RefreshToken.Token token ->
  updateRefreshToken s st token refresh ident
  = (Returned (Err newInternalServerError), st).
Proof.
  intros Hrot Hold Hne Hno.
  unfold updateRefreshToken, storage.UpdateRefreshToken.
  destruct (storage.failing st _); [done|].
  by rewrite Hold, (updater_claimed_twice _ _ _ _ _ Hrot Hne Hno).
Qed.

Lemma claimed_twice_writes_nothing_witness :
  updateRefreshToken (Scenario.server false Scenario.ldap (policyAt true 10 0 0 111))
                     (Scenario.stateOf Scenario.R1rotated 95 Scenario.healthy)
                     (internal.RefreshToken.mk "R1" "T1") Scenario.R1rotated
                     (seedIdentity Scenario.R1rotated [])
  = (Returned (Err newInternalServerError),
     Scenario.stateOf Scenario.R1rotated 95 Scenario.healthy).
Proof.
  apply (claimed_twice_writes_nothing
           (Scenario.server false Scenario.ldap (policyAt true 10 0 0 111))
           (Scenario.stateOf Scenario.R1rotated 95 Scenario.healthy)
           (internal.RefreshToken.mk "R1" "T1") Scenario.R1rotated
           (seedIdentity Scenario.R1rotated []) Scenario.R1rotated
           eq_refl eq_refl ltac:(discriminate)).
  by left.
Defined.

(** The rotator touches one grant and one session: whatever its outcome,
    every other refresh token and every other offline session is as
    before, and so is the health of the backend. *)
Theorem rotator_frame s st token refresh ident :
  (forall id, id <> RefreshToken.ID refresh ->
      storage.refreshTokens (snd (updateRefreshToken s st token refresh ident)) !! id
      = storage.refreshTokens st !! id)
  /\ (forall key, key <> sessionKey refresh ->
         storage.offlineSessions (snd (updateRefreshToken s st token refresh ident)) !! key
         = storage.offlineSessions st !! key)
  /\ storage.failing (snd (updateRefreshToken s st token refresh ident))
     = storage.failing st.
Proof.
  unfold updateRefreshToken, storage.UpdateRefreshToken.
  destruct (storage.failing st _); [done|].
  destruct (storage.refreshTokens st !! RefreshToken.ID refresh) as [old|]; [|done].
  destruct (refreshTokenUpdater _ _ _ _ _) as [[new [e|]] c']; [done|].
  match goal with
  | |- context [updateOfflineSession ?a ?b ?c ?d ?e] =>
    pose proof (updateOfflineSession_refreshTokens a b c d e) as Hrt;
    pose proof (updateOfflineSession_frame a b c d e) as [Hfl Hos];
    destruct (updateOfflineSession a b c d e) as [[[rerr|]|] st2]
  end; simpl in *;
    (split; [|split]; [intros id Hid; rewrite Hrt; by apply lookup_insert_ne
                      | intros key Hkey; by rewrite (Hos key Hkey)
                      | done]).
Qed.

Lemma rotator_frame_witness :
  storage.refreshTokens
    (snd (updateRefreshToken (Scenario.server false Scenario.ldap (policyAt true 0 0 0 100))
                             Scenario.stateTwoGrants (internal.RefreshToken.mk "R1" "T1")
                             Scenario.R1 (seedIdentity Scenario.R1 [])))
    !! "R9"%string
  = Some Scenario.R9.
Proof.
  rewrite (proj1 (rotator_frame (Scenario.server false Scenario.ldap (policyAt true 0 0 0 100))
                                Scenario.stateTwoGrants (internal.RefreshToken.mk "R1" "T1")
                                Scenario.R1 (seedIdentity Scenario.R1 []))
                 "R9"%string ltac:(discriminate)).
  reflexivity.
Defined.

(** A session update that succeeds proves that the session held a
    reference to this very grant for its client; it changes the last use
    of that reference and the connector data of the session, and leaves
    the references of the other clients as they were. *)
Theorem session_update_touches_one_reference s st refresh ident instant st' session :
  updateOfflineSession s st refresh ident instant = (Returned None, st') ->
  storage.offlineSessions st !! sessionKey refresh = Some session ->
  exists ref,
    OfflineSessions.Refresh session !! RefreshToken.ClientID refresh = Some ref
    /\ RefreshTokenRef.ID ref = RefreshToken.ID refresh
    /\ storage.offlineSessions st' !! sessionKey refresh
       = Some (stamped session (RefreshToken.ClientID refresh) ref instant
                       (Identity.ConnectorData ident))
    /\ forall other, other <> RefreshToken.ClientID refresh ->
         OfflineSessions.Refresh
           (stamped session (RefreshToken.ClientID refresh) ref instant
                    (Identity.ConnectorData ident)) !! other
         = OfflineSessions.Refresh session !! other.
Proof.
  unfold updateOfflineSession, storage.UpdateOfflineSessions. fold (sessionKey refresh).
  intros H Hs. rewrite Hs in H.
  destruct (storage.failing st _); [discriminate|].
  unfold offlineSessionUpdater in H.
  destruct (OfflineSessions.Refresh session !! RefreshToken.ClientID refresh)
    as [ref|] eqn:Hr; [|discriminate].
  destruct (String.eqb (RefreshTokenRef.ID ref) (RefreshToken.ID refresh)) eqn:Hid;
    simpl in H; [|discriminate].
  inversion H; subst. exists ref. eqb_cases.
  split; [done|]. split; [done|]. split.
  - simpl. apply lookup_insert_eq.
  - intros other Hother. simpl. by apply lookup_insert_ne.
Qed.

Lemma session_update_touches_one_reference_witness :
  exists ref,
    OfflineSessions.Refresh
      (OfflineSessions.mk "u" "ldap"
         {[ "C1"%string := RefreshTokenRef.mk "R1" "C1" 0 0;
            "C9"%string := RefreshTokenRef.mk "R9" "C9" 0 0 ]} [])
      !! RefreshToken.ClientID Scenario.R1 = Some ref
    /\ RefreshTokenRef.ID ref = "R1"%string.
Proof.
  destruct (session_update_touches_one_reference
              (Scenario.server false Scenario.ldap (policyAt true 0 0 0 100))
              Scenario.stateTwoGrants Scenario.R1 (seedIdentity Scenario.R1 []) 100
              (snd (updateOfflineSession
                      (Scenario.server false Scenario.ldap (policyAt true 0 0 0 100))
                      Scenario.stateTwoGrants Scenario.R1 (seedIdentity Scenario.R1 []) 100))
              (OfflineSessions.mk "u" "ldap"
                 {[ "C1"%string := RefreshTokenRef.mk "R1" "C1" 0 0;
                    "C9"%string := RefreshTokenRef.mk "R9" "C9" 0 0 ]} [])
              eq_refl eq_refl) as (ref & Hr & Hid & _).
  exists ref. split; [exact Hr | exact Hid].
Defined.



(** Retry after rotation: once a rotation has stored a fresh secret,
    presenting the old secret again while the reuse window of the
    rotation instant is open returns the secret of that rotation, not a
    new one, and leaves every refresh token as the rotation left it. *)
Theorem retry_returns_rotated_secret s s' st token refresh ident ident' old session ref :
  RotationEnabled (refreshTokenPolicy s) = true ->
  RotationEnabled (refreshTokenPolicy s') = true ->
  storage.failing st storage.OpUpdateRefreshToken = false ->
  storage.failing st storage.OpUpdateOfflineSessions = false ->
  storage.refreshTokens st !! RefreshToken.ID refresh = Some old ->
  RefreshToken.Token old = internal.RefreshToken.Token token ->
  storage.offlineSessions st !! sessionKey refresh = Some session ->
  OfflineSessions.Refresh session !! RefreshToken.ClientID refresh = Some ref ->
  RefreshTokenRef.ID ref = RefreshToken.ID refresh ->
  NewID s <> internal.RefreshToken.Token token ->
  AllowedToReuse (refreshTokenPolicy s') (now s) = true ->
  let st1 := snd (updateRefreshToken s st token refresh ident) in
  fst (updateRefreshToken s' st1 token refresh ident')
  = Returned (Ok (internal.RefreshToken.mk (RefreshToken.ID refresh) (NewID s)))
  /\ storage.refreshTokens (snd (updateRefreshToken s' st1 token refresh ident'))
     = storage.refreshTokens st1.
Proof.
  intros Hrot Hrot' Hf1 Hf2 Hold Ht Hs Hr Hid Hfresh Hwin st1. unfold st1.
  rewrite (rotation_promotes_secret_eq s st token refresh ident old session ref)
    by done.
  simpl.
  unfold updateRefreshToken, storage.UpdateRefreshToken. simpl.
  rewrite Hf1, lookup_insert_eq, Hrot'.
  rewrite updater_reuse; [| done | done | done | done].
  simpl.
  erewrite updateOfflineSession_ok;
    [| done | apply lookup_insert_eq | apply lookup_insert_eq | done].
  simpl. split; [done|].
  by rewrite insert_insert_eq.
Qed.

Lemma retry_returns_rotated_secret_witness :
  let s := Scenario.server false Scenario.ldap (policyAt true 10 0 0 100) in
  let s' := Scenario.serverAt 105 "T3" false Scenario.ldap (policyAt true 10 0 0 105) in
  let st := Scenario.stateOf Scenario.R1 0 Scenario.healthy in
  let token := internal.RefreshToken.mk "R1" "T1" in
  let st1 := snd (updateRefreshToken s st token Scenario.R1 (seedIdentity Scenario.R1 [])) in
  fst (updateRefreshToken s' st1 token Scenario.R1 (seedIdentity Scenario.R1 []))
  = Returned (Ok (internal.RefreshToken.mk "R1" "T2")).
Proof.
  intros s s' st token st1.
  apply (retry_returns_rotated_secret s s' st token Scenario.R1
           (seedIdentity Scenario.R1 []) (seedIdentity Scenario.R1 [])
           Scenario.R1 (Scenario.session 0 []) (RefreshTokenRef.mk "R1" "C1" 0 0)
           eq_refl eq_refl eq_refl eq_refl eq_refl eq_refl eq_refl eq_refl eq_refl
           ltac:(discriminate) eq_refl).
Defined.

(** ** Orchestration *)

(** The happy path: when every stage yields a value, the request runs
    the whole pipeline, writes exactly one response, the token response
    carrying the two minted tokens and the encoding of the handle the
    rotator returned, and leaves the storage as the rotator left it. *)
Theorem full_pipeline_response s st r client token refresh scopes ident accessToken
        idToken expiry newTok st' raw :
  ReachesRotator s st r client token refresh scopes ident accessToken idToken expiry ->
  updateRefreshToken s st token refresh (injectGroupsPrefix s refresh ident)
  = (Returned (Ok newTok), st') ->
  Marshal s newTok = Some raw ->
  serve s st r client
  = mkRun st' [AccessTokenResponse idToken accessToken raw expiry] pipeline false.
Proof.
  intros H Hrot Hraw. reach_rotator H. rewrite Hrot. step_handler.
  rewrite Hraw. step_handler. reflexivity.
Qed.

Lemma full_pipeline_response_witness :
  written (serve (Scenario.server false Scenario.ldap (policyAt true 0 0 0 100))
                 (Scenario.stateOf Scenario.R1 0 Scenario.healthy)
                 (Scenario.request "R1|T1" "openid") Scenario.client)
  = [AccessTokenResponse "id[a,b]" "access[a,b]" "R1|T2" 3600].
Proof.
  rewrite (full_pipeline_response
             (Scenario.server false Scenario.ldap (policyAt true 0 0 0 100))
             (Scenario.stateOf Scenario.R1 0 Scenario.healthy)
             (Scenario.request "R1|T1" "openid") Scenario.client
             (internal.RefreshToken.mk "R1" "T1") Scenario.R1 ["openid"%string]
             (withGroups (seedIdentity Scenario.R1 []) ["a"; "b"]%string)
             "access[a,b]" "id[a,b]" 3600
             (internal.RefreshToken.mk "R1" "T2")
             (snd (updateRefreshToken
                     (Scenario.server false Scenario.ldap (policyAt true 0 0 0 100))
                     (Scenario.stateOf Scenario.R1 0 Scenario.healthy)
                     (internal.RefreshToken.mk "R1" "T1") Scenario.R1
                     (withGroups (seedIdentity Scenario.R1 []) ["a"; "b"]%string)))
             "R1|T2").
  - reflexivity.
  - repeat split.
  - reflexivity.
  - reflexivity.
Defined.

(** Failures from the rotator on: an error of the rotator is answered
    with that one error, and a failure to encode the returned handle with
    the internal error; in both cases the request keeps what the rotator
    wrote, so after an encoding failure the storage holds a secret the
    client was never told. *)
Theorem late_failure_keeps_rotation s st r client token refresh scopes ident accessToken
        idToken expiry st' :
  ReachesRotator s st r client token refresh scopes ident accessToken idToken expiry ->
  (forall rerr,
      updateRefreshToken s st token refresh (injectGroupsPrefix s refresh ident)
      = (Returned (Err rerr), st') ->
      serve s st r client
      = mkRun st' [ErrorResponse (msg rerr) (desc rerr) (code rerr)] (through Rotate) false)
  /\ (forall newTok,
         updateRefreshToken s st token refresh (injectGroupsPrefix s refresh ident)
         = (Returned (Ok newTok), st') ->
         Marshal s newTok = None ->
         serve s st r client
         = mkRun st' [ErrorResponse errInvalidRequest (Text "") 500] (through Encode) false).
Proof.
  intros H. split.
  - intros rerr Hrot. reach_rotator H. rewrite Hrot. step_handler. reflexivity.
  - intros newTok Hrot Hraw. reach_rotator H. rewrite Hrot. step_handler.
    rewrite Hraw. step_handler. reflexivity.
Qed.

Lemma late_failure_keeps_rotation_witness :
  let s := mkServer (policyAt true 0 0 0 100) false 100
                    (Scenario.connectors Scenario.ldap) Scenario.mintAccess
                    Scenario.mintID "T2" Scenario.decode Scenario.noEncode in
  let out := serve s (Scenario.stateOf Scenario.R1 0 Scenario.healthy)
                   (Scenario.request "R1|T1" "") Scenario.client in
  written out = [ErrorResponse "invalid_request" (Text "") 500]
  /\ secretsOf <$> storage.refreshTokens (store out) !! "R1"%string
     = Some ("T2", "T1", 100)%string.
Proof.
  intros s out. unfold out.
  rewrite (proj2 (late_failure_keeps_rotation s
                    (Scenario.stateOf Scenario.R1 0 Scenario.healthy)
                    (Scenario.request "R1|T1" "") Scenario.client
                    (internal.RefreshToken.mk "R1" "T1") Scenario.R1 Scenario.scopes
                    (withGroups (seedIdentity Scenario.R1 []) ["a"; "b"]%string)
                    "access[a,b]" "id[a,b]" 3600
                    (snd (updateRefreshToken s
                            (Scenario.stateOf Scenario.R1 0 Scenario.healthy)
                            (internal.RefreshToken.mk "R1" "T1") Scenario.R1
                            (withGroups (seedIdentity Scenario.R1 []) ["a"; "b"]%string)))
                    ltac:(repeat split))
                 (internal.RefreshToken.mk "R1" "T2") eq_refl eq_refl).
  split; reflexivity.
Defined.

(** Every request writes exactly one response, unless the session
    updater panicked, in which case it writes none; and the stages it
    ran are the pipeline up to the stage it stopped in. *)
Theorem one_response_unless_panic s st r client :
  let out := serve s st r client in
  ((panicked out = false /\ exists resp, written out = [resp])
   \/ (panicked out = true /\ written out = [] /\ stages out = through Rotate))
  /\ exists g, stages out = through g.
Proof.
  unfold serve, handleRefreshToken. step_handler.
  destruct (extractRefreshTokenFromRequest s r) as [token|rerr]; step_handler.
  2: { split; [left; eauto | by exists Extract]. }
  destruct (getRefreshTokenFromStorage s st (Client.ID client) token) as [refresh|rerr];
    step_handler.
  2: { split; [left; eauto | by exists Validate]. }
  destruct (getRefreshScopes r refresh) as [scopes|rerr]; step_handler.
  2: { split; [left; eauto | by exists ReconcileScopes]. }
  destruct (refreshWithConnector s st token refresh scopes) as [ident|rerr]; step_handler.
  2: { split; [left; eauto | by exists RefreshIdentity]. }
  destruct (newAccessToken s _ _ _ _ _) as [accessToken|]; step_handler.
  2: { split; [left; eauto | by exists MintAccessToken]. }
  destruct (newIDToken s _ _ _ _ _ _ _) as [[idToken expiry]|]; step_handler.
  2: { split; [left; eauto | by exists MintIDToken]. }
  destruct (updateRefreshToken s st token refresh _) as [[[newTok|rerr]|] st'];
    step_handler; cbv [panic].
  - destruct (Marshal s newTok) as [raw|]; step_handler.
    + split; [left; eauto | by exists Respond].
    + split; [left; eauto | by exists Encode].
  - split; [left; eauto | by exists Rotate].
  - split; [right; eauto | by exists Rotate].
Qed.

(** The groups block changes the groups and nothing else: with the
    option off the identity is as it was; with it on, every group, in
    order, gets the connector id and a colon in front, and the other
    fields of the identity stay. *)
Theorem groups_block_touches_groups_only s refresh ident :
  withGroups (injectGroupsPrefix s refresh ident) (Identity.Groups ident) = ident
  /\ Identity.Groups (injectGroupsPrefix s refresh ident)
     = (if oidcGroupsPrefix s
        then map (fun group => RefreshToken.ConnectorID refresh +:+ ":" +:+ group)
                 (Identity.Groups ident)
        else Identity.Groups ident)
  /\ List.length (Identity.Groups (injectGroupsPrefix s refresh ident))
     = List.length (Identity.Groups ident).
Proof.
  unfold injectGroupsPrefix.
  destruct (oidcGroupsPrefix s); simpl.
  - rewrite prefixGroups_map. destruct ident. simpl.
    split; [done|]. split; [done|]. apply length_map.
  - by destruct ident.
Qed.

Lemma updateRefreshToken_persists_groups_witness :
  exists new,
    storage.refreshTokens
      (snd (updateRefreshToken
              (Scenario.server true Scenario.ldap (policyAt true 0 0 0 100))
              (Scenario.stateOf Scenario.R1 0 Scenario.healthy)
              (internal.RefreshToken.mk "R1" "T1") Scenario.R1
              (withGroups (seedIdentity Scenario.R1 []) ["ldap:a"; "ldap:b"]%string)))
      !! RefreshToken.ID Scenario.R1 = Some new
    /\ Claims.Groups (RefreshToken.Claims new) = ["ldap:a"; "ldap:b"]%string.
Proof.
  apply (updateRefreshToken_persists_groups
           (Scenario.server true Scenario.ldap (policyAt true 0 0 0 100))
           (Scenario.stateOf Scenario.R1 0 Scenario.healthy)
           (internal.RefreshToken.mk "R1" "T1") Scenario.R1
           (withGroups (seedIdentity Scenario.R1 []) ["ldap:a"; "ldap:b"]%string)
           Scenario.R1 eq_refl eq_refl eq_refl).
Defined.

(** A request without a refresh token, the field absent or empty, stops
    in the extraction with a bad request: the storage is not read, and
    whatever the request holds otherwise plays no part. *)
Theorem missing_refresh_token_is_bad_request s st r client :
  http.PostFormValue r "refresh_token" = EmptyString ->
  serve s st r client
  = mkRun st [ErrorResponse errInvalidRequest
                (Text "No refresh token is found in request.") 400]
          [Extract] false.
Proof.
  intros H. unfold serve, handleRefreshToken, extractRefreshTokenFromRequest.
  rewrite H. step_handler. reflexivity.
Qed.

Lemma missing_refresh_token_is_bad_request_witness :
  written (serve (Scenario.server false Scenario.ldap (policyAt true 0 0 0 100))
                 (Scenario.stateOf Scenario.R1 0 Scenario.healthy)
                 {| http.PostForm := {[ "scope"%string := ["openid"%string] ]} |}
                 Scenario.client)
  = [ErrorResponse "invalid_request" (Text "No refresh token is found in request.") 400].
Proof.
  rewrite (missing_refresh_token_is_bad_request
             (Scenario.server false Scenario.ldap (policyAt true 0 0 0 100))
             (Scenario.stateOf Scenario.R1 0 Scenario.healthy)
             {| http.PostForm := {[ "scope"%string := ["openid"%string] ]} |}
             Scenario.client); reflexivity.
Defined.

(** The guard against an empty obsolete token is in the validator only:
    for a record that was never rotated (empty obsolete token, a current
    token that is not empty) and a handle with an empty secret inside the
    reuse window, the validator refuses the handle, while the updater of
    the rotator, were it reached, would take the reuse branch and put the
    current token into the returned handle. *)
Theorem empty_secret_guard_is_in_validator_only s st clientID token ident c old :
  RotationEnabled (refreshTokenPolicy s) = true ->
  storage.GetRefresh st (internal.RefreshToken.RefreshId token) = inl old ->
  RefreshToken.ClientID old = clientID ->
  internal.RefreshToken.Token token = EmptyString ->
  RefreshToken.ObsoleteToken old = EmptyString ->
  RefreshToken.Token old <> EmptyString ->
  AllowedToReuse (refreshTokenPolicy s) (RefreshToken.LastUsed old) = true ->
  getRefreshTokenFromStorage s st clientID token = Err (invalidErr clientID token)
  /\ refreshTokenUpdater s token ident c old
     = ((old, None),
        {| newToken := internal.RefreshToken.mk
                         (internal.RefreshToken.RefreshId (newToken c))
                         (RefreshToken.Token old);
           lastUsed := RefreshToken.LastUsed old |}).
Proof.
  intros Hrot Hget Hc Hempty Hobs Hcur Ha. split.
  - apply validator_double_use with (stored := old); try done.
    + by rewrite Hempty.
    + intros (_ & _ & Hne). done.
  - apply updater_reuse; try done.
    + by rewrite Hempty.
    + by rewrite Hempty.
Qed.

Lemma empty_secret_guard_is_in_validator_only_witness :
  let s := Scenario.server false Scenario.ldap (policyAt true 10 0 0 5) in
  getRefreshTokenFromStorage s (Scenario.stateOf Scenario.R1 0 Scenario.healthy) "C1"
                             (internal.RefreshToken.mk "R1" "")
  = Err (invalidErr "C1" (internal.RefreshToken.mk "R1" ""))
  /\ refreshTokenUpdater s (internal.RefreshToken.mk "R1" "")
                         (seedIdentity Scenario.R1 [])
                         (mkCaptured (internal.RefreshToken.mk "R1" "T2") 5) Scenario.R1
     = ((Scenario.R1, None), mkCaptured (internal.RefreshToken.mk "R1" "T1") 0).
Proof.
  intros s.
  apply (empty_secret_guard_is_in_validator_only s
           (Scenario.stateOf Scenario.R1 0 Scenario.healthy) "C1"
           (internal.RefreshToken.mk "R1" "") (seedIdentity Scenario.R1 [])
           (mkCaptured (internal.RefreshToken.mk "R1" "T2") 5) Scenario.R1
           eq_refl eq_refl eq_refl eq_refl eq_refl ltac:(discriminate) eq_refl).
Defined.
